(** * Nested transaction scopes of psycopg: savepoint stack and exit protocol

    A shallow embedding of [psycopg/transaction.py] (class [BaseTransaction]
    with its [Rollback] and [OutOfOrderTransactionNesting] exceptions) and of
    the constructor of the older [psycopg3/transaction.py], followed by the
    properties of the savepoint stack, of the exit protocol and of the
    emitted command text.

    Python objects are mutable: a method reads and writes [self] and
    [self._conn].  Methods are therefore computations in a state-and-exception
    monad over the pair (scope, connection); a raised exception keeps every
    mutation made before the [raise]. *)

From Stdlib Require Import String Ascii List Bool Arith NArith Lia.
From Stdlib Require Import DecimalString DecimalNat HexString.
Import ListNotations.
Open Scope string_scope.

Set Implicit Arguments.

(* ------------------------------------------------------------------ *)
(** ** Python values used by the module *)

(** Truth value of a [str]: empty is false. *)
Definition truthy (s : string) : bool :=
  match s with
  | EmptyString => false
  | String _ _ => true
  end.

(** [sep.join(commands)] *)
Fixpoint join (sep : string) (commands : list string) : string :=
  match commands with
  | [] => EmptyString
  | [c] => c
  | c :: rest => c ++ sep ++ join sep rest
  end.

(** [str(n)] for a non-negative [int]. *)
Definition str (n : nat) : string := NilEmpty.string_of_uint (Nat.to_uint n).

(** Truth value of a [list]: empty is false. *)
Definition nonempty {A : Type} (l : list A) : bool :=
  match l with
  | [] => false
  | _ :: _ => true
  end.

(** [l.append(x)] *)
Definition append {A : Type} (l : list A) (x : A) : list A := (l ++ [x])%list.

(** [list.pop()]: the last element and the remaining list, [None] on an
    empty list (where Python raises [IndexError]). *)
Fixpoint list_pop (l : list string) : option (string * list string) :=
  match l with
  | [] => None
  | x :: rest =>
      match list_pop rest with
      | None => Some (x, [])
      | Some (y, rest') => Some (y, x :: rest')
      end
  end.

(** Modelled from the spec: [pq.TransactionStatus] is declared outside the
    shown sources; the spec lists the values
    [transactionStatus() -> {Idle, InTransaction, Error}]. *)
Inductive TransactionStatus := IDLE | INTRANS | INERROR.

Definition is_IDLE (st : TransactionStatus) : bool :=
  match st with IDLE => true | _ => false end.

(** The exceptions that reach this module.  [Rollback] carries the identity
    of its target scope ([None] when constructed without one).
    [OperationalError] stands for the errors of the wire layer;
    [KeyboardInterrupt] for a [BaseException] outside [Exception], which can
    reach [__exit__] as the signal leaving the block.  Exception objects are
    true in a boolean context: no class here defines [__bool__] or
    [__len__]. *)
Inductive exn :=
| TypeError (msg : string)
| AssertionError
| IndexError (msg : string)
| OutOfOrderTransactionNesting (msg : string)
| Rollback (transaction : option nat)
| OperationalError (msg : string)
| KeyboardInterrupt.

(** [isinstance(e, Exception)] *)
Definition isinstance_Exception (e : exn) : bool :=
  match e with KeyboardInterrupt => false | _ => true end.

(** [isinstance(e, OutOfOrderTransactionNesting)] *)
Definition isinstance_OutOfOrder (e : exn) : bool :=
  match e with OutOfOrderTransactionNesting _ => true | _ => false end.

(** Records of the module logger: the debug record of an explicit rollback
    (its text without the connection's own [repr]) and the warning about an
    error ignored in the rollback of a scope. *)
Inductive LogRecord :=
| Debug (msg : string)
| Warning (scope : nat) (exc2 : exn).

(** The two concrete classes; [repr] prints the class name. *)
Inductive TransactionClass := SyncTransaction | AsyncTransaction.

Definition qualname (k : TransactionClass) : string :=
  match k with
  | SyncTransaction => "psycopg.Transaction"
  | AsyncTransaction => "psycopg.AsyncTransaction"
  end.

(** The collaborators of the module that live outside the shown sources:
    libpq's connection, the command round trip, identifier quoting, the
    prepared-statement cache and Python's [repr] of a [str].  A round trip
    answers with an error message or with success, and moves the wire
    state. *)
Class Collaborators (PGconn PrepareManager : Type) := {
  transaction_status : PGconn -> TransactionStatus;
  connection_summary : PGconn -> string;
  round_trip : string -> PGconn -> option string * PGconn;
  escape_identifier : string -> string;
  clear : PrepareManager -> bool * PrepareManager;
  get_maintenance_commands : PrepareManager -> list string * PrepareManager;
  repr : string -> string
}.

(** Modelled from the spec: [Connection._get_tx_start_command] is outside the
    shown sources; the spec gives the command text [BEGIN]. *)
Definition _get_tx_start_command : string := "BEGIN".

(* ------------------------------------------------------------------ *)
(** ** The monad of methods *)

Inductive result (A : Type) :=
| Return (a : A)
| Raise (e : exn).
Arguments Raise {A} e.

Definition M (S A : Type) := S -> result A * S.

Definition ret {S A} (a : A) : M S A := fun s => (Return a, s).

Definition raise {S A} (e : exn) : M S A := fun s => (Raise e, s).

Definition bind {S A B} (m : M S A) (k : A -> M S B) : M S B :=
  fun s =>
    match m s with
    | (Return a, s') => k a s'
    | (Raise e, s') => (Raise e, s')
    end.

Notation "x <- m ;; k" := (bind m (fun x => k))
  (at level 61, m at next level, right associativity).
Notation "m ;; k" := (bind m (fun _ => k))
  (at level 61, right associativity).

(** [try: m  except <exceptions accepted by h>: ...]; [h e = None] when no
    clause matches [e], which then keeps propagating. *)
Definition try_except {S A} (m : M S A) (h : exn -> option (M S A))
    : M S A :=
  fun s =>
    match m s with
    | (Return a, s') => (Return a, s')
    | (Raise e, s') =>
        match h e with
        | Some handler => handler s'
        | None => (Raise e, s')
        end
    end.

(** [assert b] *)
Definition assert {S} (b : bool) : M S unit :=
  if b then ret tt else raise AssertionError.

Section Transaction.

Context {PGconn PrepareManager : Type}.
Context {CO : Collaborators PGconn PrepareManager}.

(** The connection as the module uses it.  [sent] and [logged] are
    observation fields: the batches handed to [_exec_command] and the
    records handed to the logger, oldest first. *)
Record Connection := {
  pgconn : PGconn;
  _savepoints : list string;
  _prepared : PrepareManager;
  sent : list string;
  logged : list LogRecord
}.

(** [BaseTransaction]; [ident] is the object's identity ([id(self)]). *)
Record BaseTransaction := {
  ident : nat;
  cls : TransactionClass;
  _savepoint_name : string;
  force_rollback : bool;
  _entered : bool;
  _exited : bool;
  _outer_transaction : bool
}.

(** [BaseTransaction.__init__]: the connection is stored, not inspected. *)
Definition __init__ (id : nat) (k : TransactionClass)
    (savepoint_name : option string) (force : bool)
    : M Connection BaseTransaction :=
  ret {| ident := id;
         cls := k;
         _savepoint_name :=
           match savepoint_name with
           | Some s => if truthy s then s else EmptyString
           | None => EmptyString
           end;
         force_rollback := force;
         _entered := false;
         _exited := false;
         _outer_transaction := false |}.

(** The state of a method call: [self] and [self._conn]. *)
Record St := { self : BaseTransaction; conn : Connection }.

Definition get_self : M St BaseTransaction := fun s => (Return (self s), s).
Definition get_conn : M St Connection := fun s => (Return (conn s), s).
Definition put_self (t : BaseTransaction) : M St unit :=
  fun s => (Return tt, {| self := t; conn := conn s |}).
Definition put_conn (c : Connection) : M St unit :=
  fun s => (Return tt, {| self := self s; conn := c |}).

(** Attribute assignments on [self]. *)
Definition set_entered (b : bool) (t : BaseTransaction) : BaseTransaction :=
  {| ident := ident t; cls := cls t; _savepoint_name := _savepoint_name t;
     force_rollback := force_rollback t; _entered := b;
     _exited := _exited t; _outer_transaction := _outer_transaction t |}.

Definition set_exited (b : bool) (t : BaseTransaction) : BaseTransaction :=
  {| ident := ident t; cls := cls t; _savepoint_name := _savepoint_name t;
     force_rollback := force_rollback t; _entered := _entered t;
     _exited := b; _outer_transaction := _outer_transaction t |}.

Definition set_outer_transaction (b : bool) (t : BaseTransaction)
    : BaseTransaction :=
  {| ident := ident t; cls := cls t; _savepoint_name := _savepoint_name t;
     force_rollback := force_rollback t; _entered := _entered t;
     _exited := _exited t; _outer_transaction := b |}.

Definition set_savepoint_name (n : string) (t : BaseTransaction)
    : BaseTransaction :=
  {| ident := ident t; cls := cls t; _savepoint_name := n;
     force_rollback := force_rollback t; _entered := _entered t;
     _exited := _exited t; _outer_transaction := _outer_transaction t |}.

(** Attribute assignments on [self._conn]. *)
Definition set_savepoints (l : list string) (c : Connection) : Connection :=
  {| pgconn := pgconn c; _savepoints := l; _prepared := _prepared c;
     sent := sent c; logged := logged c |}.

Definition set_prepared (p : PrepareManager) (c : Connection) : Connection :=
  {| pgconn := pgconn c; _savepoints := _savepoints c; _prepared := p;
     sent := sent c; logged := logged c |}.

Definition log (r : LogRecord) : M St unit :=
  c <- get_conn ;;
  put_conn {| pgconn := pgconn c; _savepoints := _savepoints c;
              _prepared := _prepared c; sent := sent c;
              logged := append (logged c) r |}.

(** [self._conn._exec_command(batch)]: one round trip.  The batch is
    recorded, the wire moves, and an error answer is raised. *)
Definition _exec_command (batch : string) : M St unit :=
  c <- get_conn ;;
  let answer := round_trip batch (pgconn c) in
  put_conn {| pgconn := snd answer; _savepoints := _savepoints c;
              _prepared := _prepared c; sent := append (sent c) batch;
              logged := logged c |} ;;
  match fst answer with
  | None => ret tt
  | Some msg => raise (OperationalError msg)
  end.

(* ------------------------------------------------------------------ *)
(** ** [BaseTransaction] *)

(** The [status] computed by [__repr__]. *)
Definition status (t : BaseTransaction) : string :=
  if negb (_entered t) then "inactive"
  else if negb (_exited t) then "active"
  else "terminated".

(** [BaseTransaction.__repr__] *)
Definition __repr__ (t : BaseTransaction) (c : Connection) : string :=
  let info := connection_summary (pgconn c) in
  let sp :=
    if truthy (_savepoint_name t) then repr (_savepoint_name t) ++ " "
    else EmptyString in
  "<" ++ qualname (cls t) ++ " " ++ sp ++ "(" ++ status t ++ ") " ++ info
      ++ " at " ++ HexString.of_nat (ident t) ++ ">".

(** [BaseTransaction._push_savepoint] *)
Definition _push_savepoint : M St unit :=
  c <- get_conn ;;
  t <- get_self ;;
  put_self (set_outer_transaction
              (is_IDLE (transaction_status (pgconn c))) t) ;;
  t <- get_self ;;
  (if _outer_transaction t then
     assert (negb (nonempty (_savepoints c)))
   else
     if negb (truthy (_savepoint_name t)) then
       put_self (set_savepoint_name
                   ("_pg3_" ++ str (length (_savepoints c) + 1)) t)
     else ret tt) ;;
  t <- get_self ;;
  c <- get_conn ;;
  put_conn (set_savepoints (append (_savepoints c) (_savepoint_name t)) c).

(** The text of the error built by [_pop_savepoint]. *)
Definition nesting_message (t : BaseTransaction) (c : Connection)
    (action sp : string) : string :=
  let other :=
    if truthy sp then "the savepoint " ++ repr sp
    else "the top-level transaction" in
  "transactions not correctly nested: " ++ __repr__ t c ++ " would "
    ++ action ++ " in the wrong order compared to " ++ other.

(** [BaseTransaction._pop_savepoint]: the exception to raise, if any. *)
Definition _pop_savepoint (action : string) : M St (option exn) :=
  c <- get_conn ;;
  match list_pop (_savepoints c) with
  | None => raise (IndexError "pop from empty list")
  | Some (sp, rest) =>
      put_conn (set_savepoints rest c) ;;
      t <- get_self ;;
      c <- get_conn ;;
      if String.eqb sp (_savepoint_name t) then ret None
      else ret (Some (OutOfOrderTransactionNesting
                        (nesting_message t c action sp)))
  end.

(** The batch built by [_enter_gen]. *)
Definition enter_commands (t : BaseTransaction) : list string :=
  let commands := [] in
  let commands :=
    if _outer_transaction t then append commands _get_tx_start_command
    else commands in
  if truthy (_savepoint_name t) then
    append commands ("SAVEPOINT " ++ escape_identifier (_savepoint_name t))
  else commands.

(** [BaseTransaction._enter_gen] *)
Definition _enter_gen : M St unit :=
  t <- get_self ;;
  (if _entered t then
     raise (TypeError "transaction blocks can be used only once")
   else ret tt) ;;
  put_self (set_entered true t) ;;
  _push_savepoint ;;
  t <- get_self ;;
  _exec_command (join "; " (enter_commands t)).

(** The batch built by [_commit_gen]. *)
Definition commit_commands (t : BaseTransaction) : list string :=
  let commands := [] in
  let commands :=
    if truthy (_savepoint_name t) && negb (_outer_transaction t) then
      append commands
        ("RELEASE " ++ escape_identifier (_savepoint_name t))
    else commands in
  if _outer_transaction t then append commands "COMMIT" else commands.

(** [BaseTransaction._commit_gen] *)
Definition _commit_gen : M St unit :=
  ex <- _pop_savepoint "commit" ;;
  t <- get_self ;;
  put_self (set_exited true t) ;;
  match ex with
  | Some e => raise e
  | None =>
      t <- get_self ;;
      c <- get_conn ;;
      (if _outer_transaction t then
         assert (negb (nonempty (_savepoints c)))
       else ret tt) ;;
      _exec_command (join "; " (commit_commands t))
  end.

(** The commands [_rollback_gen] builds before it looks at the cache. *)
Definition rollback_commands (t : BaseTransaction) : list string :=
  let commands := [] in
  let commands :=
    if truthy (_savepoint_name t) && negb (_outer_transaction t) then
      let n := escape_identifier (_savepoint_name t) in
      append commands ("ROLLBACK TO " ++ n ++ "; RELEASE " ++ n)
    else commands in
  if _outer_transaction t then append commands "ROLLBACK" else commands.

(** [self._conn._prepared.clear()] followed, when it answers true, by the
    iteration of [get_maintenance_commands()]. *)
Definition clear_prepared : M St (list string) :=
  c <- get_conn ;;
  let cleared := clear (_prepared c) in
  put_conn (set_prepared (snd cleared) c) ;;
  if fst cleared then
    c <- get_conn ;;
    let cmds := get_maintenance_commands (_prepared c) in
    put_conn (set_prepared (snd cmds) c) ;;
    ret (fst cmds)
  else ret [].

(** [BaseTransaction._rollback_gen] *)
Definition _rollback_gen (exc_val : option exn) : M St bool :=
  (match exc_val with
   | Some (Rollback _) => log (Debug "Explicit rollback from: ")
   | _ => ret tt
   end) ;;
  ex <- _pop_savepoint "roll back" ;;
  t <- get_self ;;
  put_self (set_exited true t) ;;
  match ex with
  | Some e => raise e
  | None =>
      t <- get_self ;;
      c <- get_conn ;;
      (if _outer_transaction t then
         assert (negb (nonempty (_savepoints c)))
       else ret tt) ;;
      maintenance <- clear_prepared ;;
      _exec_command
        (join "; " (fold_left append maintenance (rollback_commands t))) ;;
      match exc_val with
      | Some (Rollback target) =>
          match target with
          | None => ret true
          | Some tx => if Nat.eqb tx (ident t) then ret true else ret false
          end
      | _ => ret false
      end
  end.

(** The [except] clauses of [_exit_gen], in source order. *)
Definition rollback_handlers (e : exn) : option (M St bool) :=
  if isinstance_OutOfOrder e then Some (raise e)
  else if isinstance_Exception e then
    Some (t <- get_self ;; log (Warning (ident t) e) ;; ret false)
  else None.

(** [BaseTransaction._exit_gen]; [exc_val] is the exception leaving the
    block, [None] when the block completed. *)
Definition _exit_gen (exc_val : option exn) : M St bool :=
  t <- get_self ;;
  if match exc_val with None => true | Some _ => false end
     && negb (force_rollback t)
  then
    _commit_gen ;;
    ret false
  else
    try_except (_rollback_gen exc_val) rollback_handlers.

End Transaction.

(* ------------------------------------------------------------------ *)
(** ** The older constructor, [psycopg3/transaction.py] *)

Module Psycopg3.
Section Older.

Context {PGconn PrepareManager : Type}.
Context {CO : Collaborators PGconn PrepareManager}.

Record BaseTransaction := {
  force_rollback : bool;
  _yolo : bool;
  _outer_transaction : bool;
  _savepoint_name : string
}.

(** [BaseTransaction.__init__]: reads the connection's status and stack. *)
Definition __init__ (savepoint_name : option string) (force : bool)
    : M (@Connection PGconn PrepareManager) BaseTransaction :=
  fun connection =>
    if is_IDLE (transaction_status (pgconn connection)) then
      bind (assert (negb (nonempty (_savepoints connection))))
        (fun _ =>
           ret {| force_rollback := force;
                  _yolo := true;
                  _outer_transaction := true;
                  _savepoint_name :=
                    match savepoint_name with
                    | Some s => if truthy s then s else EmptyString
                    | None => EmptyString
                    end |}) connection
    else
      let synthesized :=
        "s" ++ str (length (_savepoints connection) + 1) in
      ret {| force_rollback := force;
             _yolo := true;
             _outer_transaction := false;
             _savepoint_name :=
               match savepoint_name with
               | Some s => if truthy s then s else synthesized
               | None => synthesized
               end |} connection.

(** [BaseTransaction._enter_commands]: the commands and the mutated pair
    (scope, connection). *)
Definition _enter_commands
    : M (BaseTransaction * @Connection PGconn PrepareManager) (list string) :=
  fun s =>
    let (t, c) := s in
    if negb (_yolo t) then (Raise AssertionError, s)
    else
      let t' := {| force_rollback := force_rollback t;
                   _yolo := false;
                   _outer_transaction := _outer_transaction t;
                   _savepoint_name := _savepoint_name t |} in
      if _outer_transaction t' && nonempty (_savepoints c) then
        (Raise AssertionError, (t', c))
      else
        let commands := [] in
        let commands :=
          if _outer_transaction t' then append commands "begin"
          else commands in
        let commands :=
          if truthy (_savepoint_name t') then
            append commands
              ("savepoint " ++ escape_identifier (_savepoint_name t'))
          else commands in
        (Return commands,
         (t', set_savepoints
                (append (_savepoints c) (_savepoint_name t')) c)).

(** [self._conn._exec_command("; ".join(commands))], as [_execute] calls
    it: one round trip. *)
Definition _execute (commands : list string)
    : M (BaseTransaction * @Connection PGconn PrepareManager) unit :=
  fun s =>
    let (t, c) := s in
    let batch := join "; " commands in
    let answer := round_trip batch (pgconn c) in
    (match fst answer with
     | None => Return tt
     | Some msg => Raise (OperationalError msg)
     end,
     (t, {| pgconn := snd answer; _savepoints := _savepoints c;
            _prepared := _prepared c; sent := append (sent c) batch;
            logged := logged c |})).

(** [Transaction.__enter__] *)
Definition __enter__
    : M (BaseTransaction * @Connection PGconn PrepareManager) unit :=
  commands <- _enter_commands ;;
  _execute commands.

(** [BaseTransaction._commit_commands]: the top of the stack is compared
    with the scope's name before it is popped. *)
Definition _commit_commands
    : M (BaseTransaction * @Connection PGconn PrepareManager) (list string) :=
  fun s =>
    let (t, c) := s in
    match list_pop (_savepoints c) with
    | None => (Raise (IndexError "list index out of range"), s)
    | Some (top, rest) =>
        if negb (String.eqb top (_savepoint_name t)) then
          (Raise AssertionError, s)
        else
          let c' := set_savepoints rest c in
          let commands := [] in
          let commands :=
            if truthy (_savepoint_name t) && negb (_outer_transaction t) then
              append commands
                ("release savepoint "
                   ++ escape_identifier (_savepoint_name t))
            else commands in
          if _outer_transaction t then
            if nonempty (_savepoints c') then (Raise AssertionError, (t, c'))
            else (Return (append commands "commit"), (t, c'))
          else (Return commands, (t, c'))
    end.

(** [BaseTransaction._rollback_commands] *)
Definition _rollback_commands
    : M (BaseTransaction * @Connection PGconn PrepareManager) (list string) :=
  fun s =>
    let (t, c) := s in
    match list_pop (_savepoints c) with
    | None => (Raise (IndexError "list index out of range"), s)
    | Some (top, rest) =>
        if negb (String.eqb top (_savepoint_name t)) then
          (Raise AssertionError, s)
        else
          let c' := set_savepoints rest c in
          let commands := [] in
          let commands :=
            if truthy (_savepoint_name t) && negb (_outer_transaction t) then
              let n := escape_identifier (_savepoint_name t) in
              append commands
                ("rollback to savepoint " ++ n
                   ++ "; release savepoint " ++ n)
            else commands in
          if _outer_transaction t then
            if nonempty (_savepoints c') then (Raise AssertionError, (t, c'))
            else (Return (append commands "rollback"), (t, c'))
          else (Return commands, (t, c'))
    end.

(** [Transaction._commit] *)
Definition _commit
    : M (BaseTransaction * @Connection PGconn PrepareManager) unit :=
  commands <- _commit_commands ;;
  _execute commands.

(** The debug record of [_rollback]. *)
Definition log_debug (msg : string)
    : M (BaseTransaction * @Connection PGconn PrepareManager) unit :=
  fun s =>
    let (t, c) := s in
    (Return tt,
     (t, {| pgconn := pgconn c; _savepoints := _savepoints c;
            _prepared := _prepared c; sent := sent c;
            logged := append (logged c) (Debug msg) |})).

(** [Transaction._rollback]; [id] is the identity of [self], against which
    [exc_val.transaction in (self, None)] compares. *)
Definition _rollback (id : nat) (exc_val : option exn)
    : M (BaseTransaction * @Connection PGconn PrepareManager) bool :=
  (match exc_val with
   | Some (Rollback _) => log_debug "Explicit rollback from: "
   | _ => ret tt
   end) ;;
  commands <- _rollback_commands ;;
  _execute commands ;;
  match exc_val with
  | Some (Rollback target) =>
      match target with
      | None => ret true
      | Some tx => if Nat.eqb tx id then ret true else ret false
      end
  | _ => ret false
  end.

(** [Transaction.__exit__] *)
Definition __exit__ (id : nat) (exc_val : option exn)
    : M (BaseTransaction * @Connection PGconn PrepareManager) bool :=
  fun s =>
    if match exc_val with None => true | Some _ => false end
       && negb (force_rollback (fst s))
    then (_commit ;; ret false) s
    else _rollback id exc_val s.

End Older.
End Psycopg3.

(* ------------------------------------------------------------------ *)
(** ** Well-nested use: [with conn.transaction(...)] blocks *)

(** What a block raises by itself, after the blocks nested in it. *)
Inductive Signal :=
| PlainError (msg : string)
| RollbackSignal (target : option nat)
| Interrupt.

Definition exn_of_signal (v : Signal) : exn :=
  match v with
  | PlainError msg => OperationalError msg
  | RollbackSignal target => Rollback target
  | Interrupt => KeyboardInterrupt
  end.

(** [with Transaction(conn, savepoint_name, force_rollback): body; raise ...]:
    the scopes of [body] are entered and exited inside this one, in order. *)
#[warnings="-register-all"]
Inductive Block :=
| With (id : nat) (k : TransactionClass) (savepoint_name : option string)
       (force : bool) (body : list Block) (signal : option Signal).

Section Blocks.

Context {PGconn PrepareManager : Type}.
Context {CO : Collaborators PGconn PrepareManager}.

Abbreviation Conn := (@Connection PGconn PrepareManager).
Abbreviation State := (@St PGconn PrepareManager).

(** The [with] statement around [__enter__] and [__exit__]: the block is
    skipped when [__enter__] raises; a true answer of [__exit__] swallows
    the exception in flight. *)
Definition with_statement (t : BaseTransaction)
    (block : M Conn unit) : M Conn unit :=
  fun c =>
    match _enter_gen {| self := t; conn := c |} with
    | (Raise e, s) => (Raise e, conn s)
    | (Return _, s) =>
        let (r, c1) := block (conn s) in
        let exc_val :=
          match r with
          | Return _ => None
          | Raise e => Some e
          end in
        match _exit_gen exc_val {| self := self s; conn := c1 |} with
        | (Raise e, s') => (Raise e, conn s')
        | (Return true, s') => (Return tt, conn s')
        | (Return false, s') => (r, conn s')
        end
    end.

Fixpoint run (b : Block) : M Conn unit :=
  match b with
  | With id k savepoint_name force body signal =>
      t <- __init__ id k savepoint_name force ;;
      with_statement t
        ((fix run_body (bs : list Block) : M Conn unit :=
            match bs with
            | [] => ret tt
            | b' :: rest => run b' ;; run_body rest
            end) body ;;
         match signal with
         | None => ret tt
         | Some v => raise (exn_of_signal v)
         end)
  end.

Fixpoint run_body (bs : list Block) : M Conn unit :=
  match bs with
  | [] => ret tt
  | b :: rest => run b ;; run_body rest
  end.

(** Scopes entered one inside the other, none exited: the entered scopes
    and the connection, [None] when an [__enter__] raises. *)
Fixpoint enter_nested (ts : list BaseTransaction) (c : Conn)
    : option (list BaseTransaction * Conn) :=
  match ts with
  | [] => Some ([], c)
  | t :: rest =>
      match _enter_gen {| self := t; conn := c |} with
      | (Raise _, _) => None
      | (Return _, s) =>
          match enter_nested rest (conn s) with
          | None => None
          | Some (ts', c') => Some (self s :: ts', c')
          end
      end
  end.

End Blocks.

(* ------------------------------------------------------------------ *)
(** ** Two test doubles for the collaborators *)

Definition dquote : ascii := ascii_of_nat 34.

(** Quoting in the manner of libpq: wrapped in double quotes, embedded
    double quotes doubled. *)
Fixpoint double_dquotes (s : string) : string :=
  match s with
  | EmptyString => EmptyString
  | String a rest =>
      if Ascii.eqb a dquote then String a (String a (double_dquotes rest))
      else String a (double_dquotes rest)
  end.

Definition quote_ident (s : string) : string :=
  String dquote (double_dquotes s ++ String dquote EmptyString).

Definition quote_repr (s : string) : string := "'" ++ s ++ "'".

(** The status a session reaches by a successful batch, read off the first
    command. *)
Definition next_status (batch : string) (st : TransactionStatus)
    : TransactionStatus :=
  if prefix "COMMIT" batch then IDLE
  else if prefix "ROLLBACK TO" batch then st
  else if prefix "ROLLBACK" batch then IDLE
  else if prefix "BEGIN" batch then INTRANS
  else st.

Definition summary (st : TransactionStatus) : string :=
  match st with
  | IDLE => "[IDLE]"
  | INTRANS => "[INTRANS]"
  | INERROR => "[INERROR]"
  end.

(** The cache double: true while statements are prepared. *)
Definition clear_cache (p : bool) : bool * bool := (p, false).
Definition cache_maintenance (p : bool) : list string * bool :=
  (["DEALLOCATE ALL"], p).

(** A session on which every round trip succeeds. *)
#[export] Instance Reliable : Collaborators TransactionStatus bool := {
  transaction_status := fun st => st;
  connection_summary := summary;
  round_trip := fun batch st => (None, next_status batch st);
  escape_identifier := quote_ident;
  clear := clear_cache;
  get_maintenance_commands := cache_maintenance;
  repr := quote_repr
}.

(** A session with a script of answers, one per round trip: [Some msg]
    fails the round trip with [msg]. *)
Definition Scripted_wire : Type := TransactionStatus * list (option string).

Definition scripted_round_trip (batch : string) (w : Scripted_wire)
    : option string * Scripted_wire :=
  match w with
  | (st, Some msg :: script) =>
      (Some msg, (if is_IDLE st then IDLE else INERROR, script))
  | (st, None :: script) => (None, (next_status batch st, script))
  | (st, []) => (None, (next_status batch st, []))
  end.

#[export] Instance Scripted : Collaborators Scripted_wire bool := {
  transaction_status := fun w => fst w;
  connection_summary := fun w => summary (fst w);
  round_trip := scripted_round_trip;
  escape_identifier := quote_ident;
  clear := clear_cache;
  get_maintenance_commands := cache_maintenance;
  repr := quote_repr
}.

(** A freshly opened connection. *)
Definition reliable_connection (st : TransactionStatus)
    : @Connection TransactionStatus bool :=
  {| pgconn := st; _savepoints := []; _prepared := false;
     sent := []; logged := [] |}.

(** Scopes as [__init__] builds them, and as they are once entered. *)
Definition fresh_scope (id : nat) (name : string) : BaseTransaction :=
  {| ident := id; cls := SyncTransaction; _savepoint_name := name;
     force_rollback := false; _entered := false; _exited := false;
     _outer_transaction := false |}.

Definition entered_scope (id : nat) (name : string) (outer : bool)
    : BaseTransaction :=
  {| ident := id; cls := SyncTransaction; _savepoint_name := name;
     force_rollback := false; _entered := true; _exited := false;
     _outer_transaction := outer |}.

(** The scenario of the spec: an outer scope around an inner one named
    [x], both completing. *)
Definition scenario_commit : Block :=
  With 1 SyncTransaction None false
    [With 2 SyncTransaction (Some "x") false [] None] None.

(** The same with a plain error raised in the inner block. *)
Definition scenario_error : Block :=
  With 1 SyncTransaction None false
    [With 2 SyncTransaction (Some "x") false []
       (Some (PlainError "boom"))] None.

(** Three levels, the innermost leaving by an explicit rollback aimed at
    the middle one. *)
Definition scenario_nested : Block :=
  With 1 SyncTransaction None false
    [With 2 SyncTransaction (Some "x") false [] None;
     With 3 SyncTransaction None false
       [With 4 SyncTransaction None true []
          (Some (RollbackSignal (Some 3)))] None]
    (Some (PlainError "boom")).

(** A connection inside a transaction whose stack is [stack], on a session
    that answers by [script]. *)
Definition scripted_in_transaction (stack : list string)
    (script : list (option string)) : @Connection Scripted_wire bool :=
  {| pgconn := (INTRANS, script); _savepoints := stack; _prepared := false;
     sent := []; logged := [] |}.

Definition reliable_in_transaction (stack : list string)
    : @Connection TransactionStatus bool :=
  {| pgconn := INTRANS; _savepoints := stack; _prepared := false;
     sent := []; logged := [] |}.

(* ------------------------------------------------------------------ *)
(** ** Builtin types and their oids, [psycopg3/types/oids.py] *)

Module Oids.

(** [_oids_table]: typname, oid, array oid, regtype. *)
Definition _oids_table : list (string * N * N * string) :=
  [
    ("abstime", 702%N, 1023%N, "abstime");
    ("aclitem", 1033%N, 1034%N, "aclitem");
    ("any", 2276%N, 0%N,
     (String dquote EmptyString ++ "any" ++ String dquote EmptyString));
    ("anyarray", 2277%N, 0%N, "anyarray");
    ("anyelement", 2283%N, 0%N, "anyelement");
    ("anyenum", 3500%N, 0%N, "anyenum");
    ("anynonarray", 2776%N, 0%N, "anynonarray");
    ("anyrange", 3831%N, 0%N, "anyrange");
    ("bit", 1560%N, 1561%N, "bit");
    ("bool", 16%N, 1000%N, "boolean");
    ("box", 603%N, 1020%N, "box");
    ("bpchar", 1042%N, 1014%N, "character");
    ("bytea", 17%N, 1001%N, "bytea");
    ("char", 18%N, 1002%N,
     (String dquote EmptyString ++ "char" ++ String dquote EmptyString));
    ("cid", 29%N, 1012%N, "cid");
    ("cidr", 650%N, 651%N, "cidr");
    ("circle", 718%N, 719%N, "circle");
    ("cstring", 2275%N, 1263%N, "cstring");
    ("date", 1082%N, 1182%N, "date");
    ("daterange", 3912%N, 3913%N, "daterange");
    ("event_trigger", 3838%N, 0%N, "event_trigger");
    ("float4", 700%N, 1021%N, "real");
    ("float8", 701%N, 1022%N, "double precision");
    ("gtsvector", 3642%N, 3644%N, "gtsvector");
    ("inet", 869%N, 1041%N, "inet");
    ("int2", 21%N, 1005%N, "smallint");
    ("int2vector", 22%N, 1006%N, "int2vector");
    ("int4", 23%N, 1007%N, "integer");
    ("int4range", 3904%N, 3905%N, "int4range");
    ("int8", 20%N, 1016%N, "bigint");
    ("int8range", 3926%N, 3927%N, "int8range");
    ("internal", 2281%N, 0%N, "internal");
    ("interval", 1186%N, 1187%N, "interval");
    ("json", 114%N, 199%N, "json");
    ("jsonb", 3802%N, 3807%N, "jsonb");
    ("line", 628%N, 629%N, "line");
    ("lseg", 601%N, 1018%N, "lseg");
    ("macaddr", 829%N, 1040%N, "macaddr");
    ("macaddr8", 774%N, 775%N, "macaddr8");
    ("money", 790%N, 791%N, "money");
    ("name", 19%N, 1003%N, "name");
    ("numeric", 1700%N, 1231%N, "numeric");
    ("numrange", 3906%N, 3907%N, "numrange");
    ("oid", 26%N, 1028%N, "oid");
    ("oidvector", 30%N, 1013%N, "oidvector");
    ("opaque", 2282%N, 0%N, "opaque");
    ("path", 602%N, 1019%N, "path");
    ("point", 600%N, 1017%N, "point");
    ("polygon", 604%N, 1027%N, "polygon");
    ("record", 2249%N, 2287%N, "record");
    ("refcursor", 1790%N, 2201%N, "refcursor");
    ("reltime", 703%N, 1024%N, "reltime");
    ("smgr", 210%N, 0%N, "smgr");
    ("text", 25%N, 1009%N, "text");
    ("tid", 27%N, 1010%N, "tid");
    ("time", 1083%N, 1183%N, "time without time zone");
    ("timestamp", 1114%N, 1115%N, "timestamp without time zone");
    ("timestamptz", 1184%N, 1185%N, "timestamp with time zone");
    ("timetz", 1266%N, 1270%N, "time with time zone");
    ("tinterval", 704%N, 1025%N, "tinterval");
    ("trigger", 2279%N, 0%N, "trigger");
    ("tsquery", 3615%N, 3645%N, "tsquery");
    ("tsrange", 3908%N, 3909%N, "tsrange");
    ("tstzrange", 3910%N, 3911%N, "tstzrange");
    ("tsvector", 3614%N, 3643%N, "tsvector");
    ("txid_snapshot", 2970%N, 2949%N, "txid_snapshot");
    ("unknown", 705%N, 0%N, "unknown");
    ("uuid", 2950%N, 2951%N, "uuid");
    ("varbit", 1562%N, 1563%N, "bit varying");
    ("varchar", 1043%N, 1015%N, "character varying");
    ("void", 2278%N, 0%N, "void");
    ("xid", 28%N, 1011%N, "xid");
    ("xml", 142%N, 143%N, "xml")
  ].

(** A [dict] as the list of its items, in insertion order: [d[k] = v]
    overwrites the value of a key already there and appends a new key. *)
Fixpoint dict_setitem {V : Type} (k : string) (v : V)
    (d : list (string * V)) : list (string * V) :=
  match d with
  | [] => [(k, v)]
  | (k', v') :: rest =>
      if String.eqb k k' then (k, v) :: rest
      else (k', v') :: dict_setitem k v rest
  end.

(** [d[k]], [None] where Python raises [KeyError]. *)
Fixpoint dict_getitem {V : Type} (k : string) (d : list (string * V))
    : option V :=
  match d with
  | [] => None
  | (k', v') :: rest =>
      if String.eqb k k' then Some v' else dict_getitem k rest
  end.

(** [{name: oid for name, oid, _, _ in table}] *)
Definition name_to_oid (table : list (string * N * N * string))
    : list (string * N) :=
  fold_left
    (fun d row =>
       match row with
       | (name, oid, _, _) => dict_setitem name oid d
       end)
    table [].

(** [type_oid] *)
Definition type_oid : list (string * N) := name_to_oid _oids_table.

(** [marker in line] on byte strings. *)
Fixpoint contains (marker line : string) : bool :=
  prefix marker line
  || match line with
     | EmptyString => false
     | String _ rest => contains marker rest
     end.

(** [[i for i, l in enumerate(lines) if marker in l]], counting from
    [start]. *)
Fixpoint marked_from (start : nat) (marker : string) (lines : list string)
    : list nat :=
  match lines with
  | [] => []
  | l :: rest =>
      if contains marker l then start :: marked_from (S start) marker rest
      else marked_from (S start) marker rest
  end.

(** [(i,) = xs]: [None] where the unpacking raises [ValueError]. *)
Definition unpack_single (xs : list nat) : option nat :=
  match xs with
  | [i] => Some i
  | _ => None
  end.

(** [lines[i:j] = new] for indices that are not negative. *)
Definition slice_assign (i j : nat) (new lines : list string)
    : list string :=
  (firstn i lines ++ new ++ skipn (Nat.max i j) lines)%list.

(** [self_update] on the lines read from the file and the lines printed
    by the queries: the lines written back, [None] where the function
    raises. *)
Definition self_update (lines new : list string) : option (list string) :=
  match unpack_single (marked_from 0 "autogenerated start" lines) with
  | None => None
  | Some istart =>
      match unpack_single (marked_from 0 "autogenerated end" lines) with
      | None => None
      | Some iend => Some (slice_assign (istart + 1) iend new lines)
      end
  end.

End Oids.

(* ------------------------------------------------------------------ *)
(** ** Vocabulary of the statements *)

(** [sub] occurs in [s]. *)
Definition mentions (sub s : string) : Prop :=
  exists before after, s = before ++ sub ++ after.

Section Vocabulary.

Context {PGconn PrepareManager : Type}.
Context {CO : Collaborators PGconn PrepareManager}.

Abbreviation Conn := (@Connection PGconn PrepareManager).
Abbreviation State := (@St PGconn PrepareManager).

(** The connection after the round trip of [batch], and its outcome. *)
Definition after_round_trip (batch : string) (c : Conn) : Conn :=
  {| pgconn := snd (round_trip batch (pgconn c));
     _savepoints := _savepoints c;
     _prepared := _prepared c;
     sent := append (sent c) batch;
     logged := logged c |}.

Definition round_trip_result (batch : string) (c : Conn) : result unit :=
  match fst (round_trip batch (pgconn c)) with
  | None => Return tt
  | Some msg => Raise (OperationalError msg)
  end.

(** The maintenance commands a rollback on [c] appends, and the connection
    once the cache is cleared. *)
Definition maintenance_of (p : PrepareManager) : list string :=
  if fst (clear p) then fst (get_maintenance_commands (snd (clear p)))
  else [].

Definition maintenance (c : Conn) : list string :=
  maintenance_of (_prepared c).

Definition after_clear (c : Conn) : Conn :=
  if fst (clear (_prepared c)) then
    set_prepared (snd (get_maintenance_commands (snd (clear (_prepared c)))))
      c
  else set_prepared (snd (clear (_prepared c))) c.

(** The batches of the two exit paths. *)
Definition commit_batch (t : BaseTransaction) : string :=
  join "; " (commit_commands t).

Definition rollback_batch (t : BaseTransaction) (c : Conn) : string :=
  join "; " (fold_left append (maintenance c) (rollback_commands t)).

(** The connection as [_rollback_gen] sees it after its debug record. *)
Definition after_debug (exc_val : option exn) (c : Conn) : Conn :=
  match exc_val with
  | Some (Rollback _) =>
      {| pgconn := pgconn c; _savepoints := _savepoints c;
         _prepared := _prepared c; sent := sent c;
         logged := append (logged c) (Debug "Explicit rollback from: ") |}
  | _ => c
  end.

(** The connection with one more warning. *)
Definition after_warning (id : nat) (e : exn) (c : Conn) : Conn :=
  {| pgconn := pgconn c; _savepoints := _savepoints c;
     _prepared := _prepared c; sent := sent c;
     logged := append (logged c) (Warning id e) |}.

(** The signal is the explicit rollback aimed at no scope or at [t]. *)
Definition aimed_at (exc_val : option exn) (t : BaseTransaction) : bool :=
  match exc_val with
  | Some (Rollback None) => true
  | Some (Rollback (Some tx)) => Nat.eqb tx (ident t)
  | _ => false
  end.

(** The action named in the error text of each branch. *)
Definition exit_action (exc_val : option exn) (t : BaseTransaction)
    : string :=
  match exc_val with
  | None => if force_rollback t then "roll back" else "commit"
  | Some _ => "roll back"
  end.

(** The name a scope carries once entered on [c], and the scope itself. *)
Definition entry_name (t : BaseTransaction) (c : Conn) : string :=
  if is_IDLE (transaction_status (pgconn c)) then _savepoint_name t
  else if truthy (_savepoint_name t) then _savepoint_name t
  else "_pg3_" ++ str (length (_savepoints c) + 1).

Definition entered_on (t : BaseTransaction) (c : Conn) : BaseTransaction :=
  {| ident := ident t; cls := cls t;
     _savepoint_name := entry_name t c;
     force_rollback := force_rollback t;
     _entered := true;
     _exited := _exited t;
     _outer_transaction := is_IDLE (transaction_status (pgconn c)) |}.

Definition enter_batch (t : BaseTransaction) : string :=
  join "; " (enter_commands t).

(** A scope constructed without a name and not yet entered. *)
Definition anonymous (t : BaseTransaction) : Prop :=
  _savepoint_name t = EmptyString /\ _entered t = false.

(** The name synthesized at stack depth [depth]. *)
Definition synthesized (depth : nat) : string := "_pg3_" ++ str (depth + 1).

(** The wire accepts [SAVEPOINT] with a quoted name inside a transaction
    and stays inside. *)
Definition savepoint_keeps_transaction : Prop :=
  forall (name : string) (w : PGconn),
    is_IDLE (transaction_status w) = false ->
    fst (round_trip ("SAVEPOINT " ++ escape_identifier name) w) = None
    /\ is_IDLE (transaction_status
                  (snd (round_trip
                          ("SAVEPOINT " ++ escape_identifier name) w)))
       = false.

(** The connection is idle only with an empty stack. *)
Definition stack_consistent (c : Conn) : Prop :=
  is_IDLE (transaction_status (pgconn c)) = true -> _savepoints c = [].

(** A wire that opens a transaction on the entry batch of an outer scope,
    accepts [SAVEPOINT] inside one, and stays inside one through the exit
    batches of an inner scope, whatever it answers to these. *)
Record well_behaved_wire : Prop := {
  begin_opens :
    forall w : PGconn,
      is_IDLE (transaction_status w) = true ->
      fst (round_trip "BEGIN" w) = None
      /\ is_IDLE (transaction_status (snd (round_trip "BEGIN" w))) = false;
  begin_savepoint_opens :
    forall (name : string) (w : PGconn),
      is_IDLE (transaction_status w) = true ->
      fst (round_trip ("BEGIN; SAVEPOINT " ++ escape_identifier name) w)
      = None
      /\ is_IDLE (transaction_status
                    (snd (round_trip
                            ("BEGIN; SAVEPOINT " ++ escape_identifier name)
                            w)))
         = false;
  savepoint_keeps : savepoint_keeps_transaction;
  release_keeps :
    forall (name : string) (w : PGconn),
      is_IDLE (transaction_status w) = false ->
      is_IDLE (transaction_status
                 (snd (round_trip ("RELEASE " ++ escape_identifier name) w)))
      = false;
  rollback_to_keeps :
    forall (name : string) (p : PrepareManager) (w : PGconn),
      is_IDLE (transaction_status w) = false ->
      is_IDLE (transaction_status
                 (snd (round_trip
                         (join "; "
                            (("ROLLBACK TO " ++ escape_identifier name
                                ++ "; RELEASE " ++ escape_identifier name)
                               :: maintenance_of p)) w)))
      = false
}.

(** Exceptions that come from the block or from the wire, as opposed to
    those of the module's own checks. *)
Definition external (e : exn) : bool :=
  match e with
  | Rollback _ | OperationalError _ | KeyboardInterrupt => true
  | TypeError _ | AssertionError | IndexError _
  | OutOfOrderTransactionNesting _ => false
  end.

Definition external_result (r : result unit) : Prop :=
  match r with
  | Return _ => True
  | Raise e => external e = true
  end.

(** A log record that does not report a failed check of the module. *)
Definition benign (r : LogRecord) : Prop :=
  match r with
  | Debug _ => True
  | Warning _ e => external e = true
  end.

(** What a well-nested run from [c] to [c'] with result [r] must satisfy. *)
Definition balanced (c : Conn) (out : result unit * Conn) : Prop :=
  _savepoints (snd out) = _savepoints c
  /\ stack_consistent (snd out)
  /\ external_result (fst out)
  /\ exists new, logged (snd out) = (logged c ++ new)%list
                 /\ Forall benign new.

End Vocabulary.

(* ------------------------------------------------------------------ *)
(** ** Further vocabulary *)

(** Scopes nested one inside the other, given from the outermost to the
    innermost, which raises [signal]; a level is the identity, the name and
    the [force_rollback] flag of a scope. *)
Definition Level : Type := nat * option string * bool.

Fixpoint chain (outermost : Level) (inner : list Level)
    (signal : option Signal) : Block :=
  match outermost with
  | (id, name, force) =>
      match inner with
      | [] => With id SyncTransaction name force [] signal
      | next :: rest =>
          With id SyncTransaction name force [chain next rest signal] None
      end
  end.

Definition level_id (l : Level) : nat := fst (fst l).

(** The columns of a row of the oid table. *)
Definition row_name (row : string * N * N * string) : string :=
  fst (fst (fst row)).
Definition row_oid (row : string * N * N * string) : N :=
  snd (fst (fst row)).
Definition row_array (row : string * N * N * string) : N :=
  snd (fst row).

(** No two elements of the list are equal. *)
Fixpoint distinct_names (l : list string) : bool :=
  match l with
  | [] => true
  | x :: rest => negb (existsb (String.eqb x) rest) && distinct_names rest
  end.

Fixpoint distinct_oids (l : list N) : bool :=
  match l with
  | [] => true
  | x :: rest => negb (existsb (N.eqb x) rest) && distinct_oids rest
  end.

(** The line holds neither marker of [self_update]. *)
Definition unmarked (line : string) : bool :=
  negb (Oids.contains "autogenerated start" line)
  && negb (Oids.contains "autogenerated end" line).

Section MoreVocabulary.

Context {PGconn PrepareManager : Type}.
Context {CO : Collaborators PGconn PrepareManager}.

Abbreviation Conn := (@Connection PGconn PrepareManager).
Abbreviation State := (@St PGconn PrepareManager).

(** Every round trip is answered without an error. *)
Definition wire_never_fails : Prop :=
  forall (batch : string) (w : PGconn), fst (round_trip batch w) = None.

(** The stage of a scope's life, as [__repr__] words it: 0 inactive,
    1 active, 2 terminated. *)
Definition stage (t : BaseTransaction) : nat :=
  if negb (_entered t) then 0 else if negb (_exited t) then 1 else 2.

(** What a [with] statement around scope [t] makes of the outcome of its
    block. *)
Definition with_outcome (t : BaseTransaction) (r : result unit)
    : result unit :=
  match r with
  | Return _ => Return tt
  | Raise e => if aimed_at (Some e) t then Return tt else Raise e
  end.

(** The connection on which the block of a [with] statement starts. *)
Definition block_start (t : BaseTransaction) (c : Conn) : Conn :=
  after_round_trip (enter_batch (entered_on t c))
    (set_savepoints (append (_savepoints c) (entry_name t c)) c).

(** The commands the older [_commit_commands] and [_rollback_commands]
    return for a scope: the release or rollback of its savepoint for a
    named inner scope, [commit] or [rollback] for an outer one. *)
Definition older_commit_list (t : Psycopg3.BaseTransaction) : list string :=
  let commands :=
    if truthy (Psycopg3._savepoint_name t)
       && negb (Psycopg3._outer_transaction t)
    then ["release savepoint "
            ++ escape_identifier (Psycopg3._savepoint_name t)]
    else [] in
  if Psycopg3._outer_transaction t then append commands "commit"
  else commands.

Definition older_rollback_list (t : Psycopg3.BaseTransaction)
    : list string :=
  let commands :=
    if truthy (Psycopg3._savepoint_name t)
       && negb (Psycopg3._outer_transaction t)
    then ["rollback to savepoint "
            ++ escape_identifier (Psycopg3._savepoint_name t)
            ++ "; release savepoint "
            ++ escape_identifier (Psycopg3._savepoint_name t)]
    else [] in
  if Psycopg3._outer_transaction t then append commands "rollback"
  else commands.

(** The signal is the explicit rollback aimed at no scope or at the scope
    of identity [id]. *)
Definition aimed_at_id (id : nat) (exc_val : option exn) : bool :=
  match exc_val with
  | Some (Rollback None) => true
  | Some (Rollback (Some tx)) => Nat.eqb tx id
  | _ => false
  end.

(** The batch of an older exit. *)
Definition older_exit_batch (exc_val : option exn)
    (t : Psycopg3.BaseTransaction) : string :=
  join "; "
    (if match exc_val with None => true | Some _ => false end
        && negb (Psycopg3.force_rollback t)
     then older_commit_list t
     else older_rollback_list t).

End MoreVocabulary.

(* ------------------------------------------------------------------ *)
(** * Properties *)

(** ** Python lists and strings *)

Lemma list_pop_app (init : list string) (top : string) :
  list_pop (init ++ [top])%list = Some (top, init).
Proof.
  induction init as [|x init IH]; simpl.
  - reflexivity.
  - rewrite IH. reflexivity.
Qed.

Lemma string_app_assoc (a b c : string) : (a ++ b) ++ c = a ++ (b ++ c).
Proof.
  induction a as [|x a IH]; simpl; [reflexivity|].
  rewrite IH. reflexivity.
Qed.

Lemma mentions_here (sub after : string) : mentions sub (sub ++ after).
Proof. exists EmptyString, after. reflexivity. Qed.

Lemma mentions_later (sub before s : string) :
  mentions sub s -> mentions sub (before ++ s).
Proof.
  intros (b & a & ->). exists (before ++ b), a.
  rewrite string_app_assoc. reflexivity.
Qed.

Lemma mentions_end (sub before : string) : mentions sub (before ++ sub).
Proof.
  exists before, EmptyString.
  replace (sub ++ EmptyString) with sub; [reflexivity|].
  induction sub as [|x sub IH]; simpl; [reflexivity|].
  rewrite <- IH. reflexivity.
Qed.

Lemma mentions_refl (sub : string) : mentions sub sub.
Proof. apply (mentions_end sub EmptyString). Qed.

(** Finds an occurrence through a right-nested concatenation. *)
Ltac find_mention :=
  first [ apply mentions_refl
        | apply mentions_here
        | apply mentions_end
        | apply mentions_later; find_mention ].

Lemma str_injective (n m : nat) : str n = str m -> n = m.
Proof.
  unfold str. intros H.
  apply (f_equal NilEmpty.uint_of_string) in H.
  rewrite !NilEmpty.usu in H. inversion H as [H'].
  apply DecimalNat.Unsigned.to_uint_inj. exact H'.
Qed.

Lemma NoDup_map_injective {A B : Type} (f : A -> B) (l : list A) :
  (forall x y, f x = f y -> x = y) -> NoDup l -> NoDup (map f l).
Proof.
  intros Hinj Hl. induction Hl as [|x l Hx Hl IH]; simpl.
  - constructor.
  - constructor; [|exact IH].
    intros Hin. apply in_map_iff in Hin. destruct Hin as (y & Hy & Hin).
    apply Hinj in Hy. subst y. contradiction.
Qed.

Lemma eqb_false_iff (a b : string) : String.eqb a b = false <-> a <> b.
Proof.
  destruct (String.eqb_spec a b) as [E|N]; split; intros H;
    try discriminate; try reflexivity; try assumption.
  contradiction.
Qed.

Section Properties.

Context {PGconn PrepareManager : Type}.
Context {CO : Collaborators PGconn PrepareManager}.

Abbreviation Conn := (@Connection PGconn PrepareManager).
Abbreviation State := (@St PGconn PrepareManager).

(** Unfolds the methods down to the primitive state operations. *)
Ltac methods :=
  unfold _exit_gen, _commit_gen, _rollback_gen, _enter_gen, _push_savepoint,
    _pop_savepoint, _exec_command, clear_prepared, rollback_handlers,
    try_except, log, assert, bind, ret, raise, get_self, get_conn,
    put_self, put_conn in *.

(** ** [_pop_savepoint] *)

Lemma pop_savepoint_top (action : string) (t : BaseTransaction) (c : Conn)
    (init : list string) (top : string) :
  _pop_savepoint action
    {| self := t; conn := set_savepoints (init ++ [top])%list c |} =
  (Return (if String.eqb top (_savepoint_name t) then None
           else Some (OutOfOrderTransactionNesting
                        (nesting_message t c action top))),
   {| self := t; conn := set_savepoints init c |}).
Proof.
  methods. simpl. rewrite list_pop_app. simpl.
  destruct (String.eqb top (_savepoint_name t)); reflexivity.
Qed.

Lemma nesting_message_mentions (t : BaseTransaction) (c : Conn)
    (action sp : string) :
  (truthy sp = true -> mentions (repr sp) (nesting_message t c action sp))
  /\ (truthy sp = false ->
      mentions "the top-level transaction" (nesting_message t c action sp))
  /\ (truthy (_savepoint_name t) = true ->
      mentions (repr (_savepoint_name t)) (nesting_message t c action sp)).
Proof.
  unfold nesting_message, __repr__. repeat split; intros H; rewrite ?H.
  - find_mention.
  - find_mention.
  - rewrite !string_app_assoc. find_mention.
Qed.


(** ** Closed forms of the methods *)

Lemma exec_command_run (batch : string) (s : State) :
  _exec_command batch s =
  (round_trip_result batch (conn s),
   {| self := self s; conn := after_round_trip batch (conn s) |}).
Proof.
  methods. unfold round_trip_result, after_round_trip. simpl.
  destruct (fst (round_trip batch (pgconn (conn s)))); reflexivity.
Qed.

Lemma clear_prepared_run (s : State) :
  clear_prepared s =
  (Return (maintenance (conn s)),
   {| self := self s; conn := after_clear (conn s) |}).
Proof.
  methods. unfold maintenance, maintenance_of, after_clear. simpl.
  destruct (fst (clear (_prepared (conn s)))); reflexivity.
Qed.

Lemma commit_gen_run (t : BaseTransaction) (c : Conn)
    (init : list string) (top : string) :
  _commit_gen {| self := t; conn := set_savepoints (init ++ [top])%list c |} =
  let s' := {| self := set_exited true t; conn := set_savepoints init c |} in
  if String.eqb top (_savepoint_name t) then
    if _outer_transaction t && nonempty init then (Raise AssertionError, s')
    else _exec_command (commit_batch t) s'
  else
    (Raise (OutOfOrderTransactionNesting (nesting_message t c "commit" top)),
     s').
Proof.
  unfold _commit_gen. unfold bind at 1. rewrite pop_savepoint_top.
  destruct (String.eqb top (_savepoint_name t)); [|reflexivity].
  unfold bind, get_self, get_conn, put_self, assert, ret, raise. simpl.
  destruct (_outer_transaction t); simpl; [|reflexivity].
  destruct init; reflexivity.
Qed.

Lemma rollback_gen_run (exc_val : option exn) (t : BaseTransaction)
    (c : Conn) (init : list string) (top : string) :
  _rollback_gen exc_val
    {| self := t; conn := set_savepoints (init ++ [top])%list c |} =
  let c' := set_savepoints init (after_debug exc_val c) in
  let s' := {| self := set_exited true t; conn := c' |} in
  if String.eqb top (_savepoint_name t) then
    if _outer_transaction t && nonempty init then (Raise AssertionError, s')
    else
      (match round_trip_result (rollback_batch t c) (after_clear c') with
       | Return _ => Return (aimed_at exc_val t)
       | Raise e => Raise e
       end,
       {| self := set_exited true t;
          conn := after_round_trip (rollback_batch t c) (after_clear c') |})
  else
    (Raise (OutOfOrderTransactionNesting
              (nesting_message t c "roll back" top)),
     s').
Proof.
  unfold _rollback_gen.
  assert (Hlog :
    (match exc_val with
     | Some (Rollback _) => log (Debug "Explicit rollback from: ")
     | _ => ret tt
     end) {| self := t; conn := set_savepoints (init ++ [top])%list c |}
    = (Return tt,
       {| self := t;
          conn := set_savepoints (init ++ [top])%list
                    (after_debug exc_val c) |})).
  { destruct exc_val as [[]|]; reflexivity. }
  unfold bind at 1. rewrite Hlog. clear Hlog.
  unfold bind at 1. rewrite pop_savepoint_top.
  assert (Hmsg : nesting_message t (after_debug exc_val c) "roll back" top
                 = nesting_message t c "roll back" top).
  { destruct exc_val as [[]|]; reflexivity. }
  rewrite Hmsg. clear Hmsg.
  destruct (String.eqb top (_savepoint_name t)); [|reflexivity].
  unfold bind at 1. unfold get_self at 1. simpl.
  unfold bind at 1. unfold put_self at 1. simpl.
  unfold bind at 1. unfold get_self at 1. simpl.
  unfold bind at 1. unfold get_conn at 1. simpl.
  destruct (_outer_transaction t) eqn:Ho; simpl.
  - destruct init as [|x init]; simpl.
    + unfold bind at 1. unfold assert, ret at 1. simpl.
      unfold bind at 1. rewrite clear_prepared_run. simpl.
      unfold bind at 1. rewrite exec_command_run. simpl.
      assert (Hb : maintenance (set_savepoints [] (after_debug exc_val c))
                   = maintenance c).
      { destruct exc_val as [[]|]; reflexivity. }
      unfold rollback_batch. rewrite Hb.
      assert (Hr : rollback_commands (set_exited true t)
                   = rollback_commands t) by reflexivity.
      rewrite Hr.
      destruct (round_trip_result _ _); [|reflexivity].
      destruct exc_val as [[| | | |[tx|]| |]|]; simpl; try reflexivity.
      destruct (Nat.eqb tx (ident t)); reflexivity.
    + reflexivity.
  - unfold bind at 1. unfold ret at 1. simpl.
    unfold bind at 1. rewrite clear_prepared_run. simpl.
    unfold bind at 1. rewrite exec_command_run. simpl.
    assert (Hb : maintenance (set_savepoints init (after_debug exc_val c))
                 = maintenance c).
    { destruct exc_val as [[]|]; reflexivity. }
    unfold rollback_batch. rewrite Hb.
    assert (Hr : rollback_commands (set_exited true t)
                 = rollback_commands t) by reflexivity.
    rewrite Hr.
    destruct (round_trip_result _ _); [|reflexivity].
    destruct exc_val as [[| | | |[tx|]| |]|]; simpl; try reflexivity.
    destruct (Nat.eqb tx (ident t)); reflexivity.
Qed.

(** The branch taken by [_exit_gen]. *)
Lemma exit_gen_commit (t : BaseTransaction) (c : Conn) :
  force_rollback t = false ->
  _exit_gen None {| self := t; conn := c |} =
  match _commit_gen {| self := t; conn := c |} with
  | (Return _, s') => (Return false, s')
  | (Raise e, s') => (Raise e, s')
  end.
Proof.
  intros Hf. unfold _exit_gen, bind at 1, get_self. simpl. rewrite Hf. simpl.
  unfold bind, ret. destruct (_commit_gen _) as [[u|e] s']; reflexivity.
Qed.

Lemma exit_gen_rollback (exc_val : option exn) (t : BaseTransaction)
    (c : Conn) :
  match exc_val with None => force_rollback t | Some _ => true end = true ->
  _exit_gen exc_val {| self := t; conn := c |} =
  try_except (_rollback_gen exc_val) rollback_handlers
    {| self := t; conn := c |}.
Proof.
  intros H. unfold _exit_gen, bind at 1, get_self. simpl.
  destruct exc_val as [e|]; simpl; [reflexivity|].
  rewrite H. reflexivity.
Qed.

(** Fields that the bookkeeping steps leave alone. *)
Lemma after_clear_frame (c : Conn) :
  _savepoints (after_clear c) = _savepoints c
  /\ pgconn (after_clear c) = pgconn c
  /\ sent (after_clear c) = sent c
  /\ logged (after_clear c) = logged c.
Proof.
  unfold after_clear. destruct (fst (clear (_prepared c)));
    repeat split; reflexivity.
Qed.

Lemma after_debug_frame (exc_val : option exn) (c : Conn) :
  _savepoints (after_debug exc_val c) = _savepoints c
  /\ pgconn (after_debug exc_val c) = pgconn c
  /\ sent (after_debug exc_val c) = sent c
  /\ _prepared (after_debug exc_val c) = _prepared c.
Proof.
  destruct exc_val as [[]|]; repeat split; reflexivity.
Qed.

Lemma savepoints_after_clear (c : Conn) :
  _savepoints (after_clear c) = _savepoints c.
Proof. apply after_clear_frame. Qed.

Lemma pgconn_after_clear (c : Conn) : pgconn (after_clear c) = pgconn c.
Proof. apply after_clear_frame. Qed.

Lemma sent_after_clear (c : Conn) : sent (after_clear c) = sent c.
Proof. apply after_clear_frame. Qed.

Lemma logged_after_clear (c : Conn) : logged (after_clear c) = logged c.
Proof. apply after_clear_frame. Qed.

Lemma savepoints_after_debug (exc_val : option exn) (c : Conn) :
  _savepoints (after_debug exc_val c) = _savepoints c.
Proof. apply after_debug_frame. Qed.

Lemma pgconn_after_debug (exc_val : option exn) (c : Conn) :
  pgconn (after_debug exc_val c) = pgconn c.
Proof. apply after_debug_frame. Qed.

Lemma sent_after_debug (exc_val : option exn) (c : Conn) :
  sent (after_debug exc_val c) = sent c.
Proof. apply after_debug_frame. Qed.

Lemma savepoints_set (l : list string) (c : Conn) :
  _savepoints (set_savepoints l c) = l.
Proof. reflexivity. Qed.

Lemma pgconn_set_savepoints (l : list string) (c : Conn) :
  pgconn (set_savepoints l c) = pgconn c.
Proof. reflexivity. Qed.

Lemma sent_set_savepoints (l : list string) (c : Conn) :
  sent (set_savepoints l c) = sent c.
Proof. reflexivity. Qed.

Lemma savepoints_after_round_trip (batch : string) (c : Conn) :
  _savepoints (after_round_trip batch c) = _savepoints c.
Proof. reflexivity. Qed.

Lemma sent_after_round_trip (batch : string) (c : Conn) :
  sent (after_round_trip batch c) = append (sent c) batch.
Proof. reflexivity. Qed.

Lemma pgconn_after_round_trip (batch : string) (c : Conn) :
  pgconn (after_round_trip batch c) = snd (round_trip batch (pgconn c)).
Proof. reflexivity. Qed.

Lemma savepoints_after_warning (id : nat) (e : exn) (c : Conn) :
  _savepoints (after_warning id e c) = _savepoints c.
Proof. reflexivity. Qed.

Lemma sent_after_warning (id : nat) (e : exn) (c : Conn) :
  sent (after_warning id e c) = sent c.
Proof. reflexivity. Qed.

Lemma pgconn_after_warning (id : nat) (e : exn) (c : Conn) :
  pgconn (after_warning id e c) = pgconn c.
Proof. reflexivity. Qed.

Create Rewrite HintDb frame.

Hint Rewrite savepoints_after_clear pgconn_after_clear sent_after_clear
  logged_after_clear savepoints_after_debug pgconn_after_debug
  sent_after_debug savepoints_set pgconn_set_savepoints sent_set_savepoints
  savepoints_after_round_trip sent_after_round_trip pgconn_after_round_trip
  savepoints_after_warning sent_after_warning pgconn_after_warning : frame.

(** The commit path of [_exit_gen], once the top of the stack is known. *)
Lemma exit_commit_run (t : BaseTransaction) (c : Conn)
    (init : list string) (top : string) :
  force_rollback t = false ->
  _exit_gen None
    {| self := t; conn := set_savepoints (init ++ [top])%list c |} =
  let t' := set_exited true t in
  let c' := set_savepoints init c in
  if String.eqb top (_savepoint_name t) then
    if _outer_transaction t && nonempty init then
      (Raise AssertionError, {| self := t'; conn := c' |})
    else
      (match fst (round_trip (commit_batch t) (pgconn c)) with
       | None => Return false
       | Some msg => Raise (OperationalError msg)
       end,
       {| self := t'; conn := after_round_trip (commit_batch t) c' |})
  else
    (Raise (OutOfOrderTransactionNesting (nesting_message t c "commit" top)),
     {| self := t'; conn := c' |}).
Proof.
  intros Hf. rewrite exit_gen_commit by exact Hf. rewrite commit_gen_run.
  cbv zeta. destruct (String.eqb top (_savepoint_name t)); [|reflexivity].
  destruct (_outer_transaction t && nonempty init); [reflexivity|].
  rewrite exec_command_run. unfold round_trip_result. simpl.
  destruct (fst (round_trip (commit_batch t) (pgconn c))); reflexivity.
Qed.

(** The rollback path of [_exit_gen], once the top of the stack is known. *)
Lemma exit_rollback_run (exc_val : option exn) (t : BaseTransaction)
    (c : Conn) (init : list string) (top : string) :
  match exc_val with None => force_rollback t | Some _ => true end = true ->
  _exit_gen exc_val
    {| self := t; conn := set_savepoints (init ++ [top])%list c |} =
  let t' := set_exited true t in
  let c' := set_savepoints init (after_debug exc_val c) in
  let c'' := after_round_trip (rollback_batch t c) (after_clear c') in
  if String.eqb top (_savepoint_name t) then
    if _outer_transaction t && nonempty init then
      (Return false,
       {| self := t'; conn := after_warning (ident t) AssertionError c' |})
    else
      match fst (round_trip (rollback_batch t c) (pgconn c)) with
      | None => (Return (aimed_at exc_val t), {| self := t'; conn := c'' |})
      | Some msg =>
          (Return false,
           {| self := t';
              conn := after_warning (ident t) (OperationalError msg) c'' |})
      end
  else
    (Raise (OutOfOrderTransactionNesting
              (nesting_message t c "roll back" top)),
     {| self := t'; conn := c' |}).
Proof.
  intros Hp. rewrite exit_gen_rollback by exact Hp.
  unfold try_except. rewrite rollback_gen_run. cbv zeta.
  destruct (String.eqb top (_savepoint_name t)); [|reflexivity].
  destruct (_outer_transaction t && nonempty init); [reflexivity|].
  unfold round_trip_result. autorewrite with frame.
  destruct (fst (round_trip (rollback_batch t c) (pgconn c)));
    reflexivity.
Qed.

(** [_exit_gen] on an empty stack: the pop raises [IndexError]. *)
Lemma exit_empty_run (exc_val : option exn) (t : BaseTransaction) (c : Conn) :
  _exit_gen exc_val {| self := t; conn := set_savepoints [] c |} =
  if match exc_val with None => negb (force_rollback t) | Some _ => false end
  then
    (Raise (IndexError "pop from empty list"),
     {| self := t; conn := set_savepoints [] c |})
  else
    (Return false,
     {| self := t;
        conn := after_warning (ident t) (IndexError "pop from empty list")
                  (set_savepoints [] (after_debug exc_val c)) |}).
Proof.
  destruct exc_val as [e|]; [|destruct (force_rollback t) eqn:Hf].
  - rewrite exit_gen_rollback by reflexivity.
    destruct e; reflexivity.
  - rewrite exit_gen_rollback by exact Hf. reflexivity.
  - rewrite exit_gen_commit by exact Hf. reflexivity.
Qed.

(** Every state is one of the two shapes the closed forms speak about. *)
Lemma state_shape (s : State) :
  (exists c, s = {| self := self s; conn := set_savepoints [] c |})
  \/ (exists c init top,
        s = {| self := self s;
               conn := set_savepoints (init ++ [top])%list c |}).
Proof.
  destruct s as [t [pg sp pr se lg]].
  destruct sp as [|x sp].
  - left. exists {| pgconn := pg; _savepoints := []; _prepared := pr;
                    sent := se; logged := lg |}. reflexivity.
  - right. destruct (@exists_last _ (x :: sp)) as (init & top & E);
      [discriminate|].
    exists {| pgconn := pg; _savepoints := []; _prepared := pr;
              sent := se; logged := lg |}, init, top.
    simpl. unfold set_savepoints. simpl. rewrite E. reflexivity.
Qed.

(** Splits on the branch of [_exit_gen] and on what the pop finds. *)
Ltac on_exit exc_val t :=
  first
    [ destruct exc_val as [?e|];
      [ rewrite !exit_rollback_run by reflexivity
      | let Hf := fresh "Hforce" in
        destruct (force_rollback t) eqn:Hf;
        [ rewrite !exit_rollback_run by exact Hf
        | rewrite !exit_commit_run by exact Hf ] ] ];
  cbv zeta;
  destruct (String.eqb _ (_savepoint_name t)) eqn:?Hname;
  try (destruct (_outer_transaction t && nonempty _) eqn:?Hassert);
  try (destruct (fst (round_trip _ _)) eqn:?Hanswer);
  cbn [fst snd conn self].

(** ** The exit protocol *)

Lemma exit_stack_popped (exc_val : option exn) (t : BaseTransaction)
    (c : Conn) (init : list string) (top : string) :
  _savepoints (conn (snd (_exit_gen exc_val
     {| self := t; conn := set_savepoints (init ++ [top])%list c |}))) = init.
Proof.
  on_exit exc_val t; autorewrite with frame; reflexivity.
Qed.

Lemma exit_mismatch (exc_val : option exn) (t : BaseTransaction)
    (c : Conn) (init : list string) (top : string) :
  top <> _savepoint_name t ->
  _exit_gen exc_val
    {| self := t; conn := set_savepoints (init ++ [top])%list c |}
  = (Raise (OutOfOrderTransactionNesting
              (nesting_message t c (exit_action exc_val t) top)),
     {| self := set_exited true t;
        conn := set_savepoints init (after_debug exc_val c) |}).
Proof.
  intros Hne. apply eqb_false_iff in Hne. unfold exit_action.
  on_exit exc_val t; try congruence; reflexivity.
Qed.

Lemma exit_match_no_nesting_error (exc_val : option exn)
    (t : BaseTransaction) (c : Conn) (init : list string) (msg : string) :
  fst (_exit_gen exc_val
         {| self := t;
            conn := set_savepoints (init ++ [_savepoint_name t])%list c |})
  <> Raise (OutOfOrderTransactionNesting msg).
Proof.
  on_exit exc_val t; try discriminate.
  all: rewrite String.eqb_refl in Hname; discriminate.
Qed.

(** C1. Every exit of a scope, on the commit path as on the rollback path,
    removes the top of the savepoint stack; it raises the out-of-order
    error exactly when the removed name differs from the scope's own. The
    error text names the removed savepoint and the scope's own (an empty
    name is worded as the top-level transaction, respectively left out of
    the scope's description); the stack stays popped and nothing is sent. *)
Theorem exit_pops_top_and_reports_mismatch :
  forall (exc_val : option exn) (t : BaseTransaction) (c : Conn)
         (init : list string) (top : string),
    let s := {| self := t; conn := set_savepoints (init ++ [top])%list c |} in
    let message := nesting_message t c (exit_action exc_val t) top in
    _savepoints (conn (snd (_exit_gen exc_val s))) = init
    /\ (top <> _savepoint_name t ->
        fst (_exit_gen exc_val s)
          = Raise (OutOfOrderTransactionNesting message)
        /\ sent (conn (snd (_exit_gen exc_val s))) = sent c
        /\ pgconn (conn (snd (_exit_gen exc_val s))) = pgconn c)
    /\ (top = _savepoint_name t ->
        forall msg, fst (_exit_gen exc_val s)
                      <> Raise (OutOfOrderTransactionNesting msg))
    /\ (truthy top = true -> mentions (repr top) message)
    /\ (truthy top = false -> mentions "the top-level transaction" message)
    /\ (truthy (_savepoint_name t) = true ->
        mentions (repr (_savepoint_name t)) message).
Proof.
  intros exc_val t c init top s message.
  split; [|split; [|split; [|apply nesting_message_mentions]]].
  - apply exit_stack_popped.
  - intros Hne. subst s message. rewrite exit_mismatch by exact Hne.
    cbn [fst snd conn]. autorewrite with frame. repeat split; reflexivity.
  - intros -> msg. apply exit_match_no_nesting_error.
Qed.

(** What the rollback attempt can raise at all. *)
Lemma rollback_attempt_raises (exc_val : option exn) (s s' : State)
    (e : exn) :
  _rollback_gen exc_val s = (Raise e, s') -> isinstance_Exception e = true.
Proof.
  destruct (state_shape s) as [(c & E)|(c & init & top & E)]; rewrite E.
  - destruct exc_val as [[]|]; intros H; inversion H; reflexivity.
  - rewrite rollback_gen_run. cbv zeta.
    destruct (String.eqb top (_savepoint_name (self s))).
    + destruct (_outer_transaction (self s) && nonempty init).
      * intros H; inversion H; reflexivity.
      * unfold round_trip_result.
        destruct (fst (round_trip _ _)); intros H; inversion H; reflexivity.
    + intros H; inversion H; reflexivity.
Qed.

(** C2. On the rollback path with a signal [v] in flight: an out-of-order
    error raised by the rollback attempt leaves [_exit_gen] as it is; any
    other exception of the attempt is an [Exception], is logged as a warning
    and suppressed, and [_exit_gen] answers false, so that [v] keeps
    propagating; an attempt that returns hands its answer through. *)
Theorem rollback_failure_priority :
  forall (v : exn) (s : State),
    match _rollback_gen (Some v) s with
    | (Raise e, s') =>
        if isinstance_OutOfOrder e then
          _exit_gen (Some v) s = (Raise e, s')
        else
          isinstance_Exception e = true
          /\ _exit_gen (Some v) s
             = (Return false,
                {| self := self s';
                   conn := after_warning (ident (self s')) e (conn s') |})
    | (Return b, s') => _exit_gen (Some v) s = (Return b, s')
    end.
Proof.
  intros v [t c].
  rewrite exit_gen_rollback by reflexivity. unfold try_except.
  destruct (_rollback_gen (Some v) {| self := t; conn := c |})
    as [[b|e] s'] eqn:Hr; [reflexivity|].
  pose proof (rollback_attempt_raises _ _ Hr) as Hexc.
  unfold rollback_handlers.
  destruct (isinstance_OutOfOrder e); [reflexivity|].
  rewrite Hexc. split; reflexivity.
Qed.

Lemma prefix_empty (s : string) : prefix EmptyString s = true.
Proof. destruct s; reflexivity. Qed.

Lemma fold_left_append (l acc : list string) :
  fold_left append l acc = (acc ++ l)%list.
Proof.
  revert acc. induction l as [|x l IH]; intros acc; simpl.
  - rewrite app_nil_r. reflexivity.
  - rewrite IH. unfold append. rewrite <- app_assoc. reflexivity.
Qed.

(** An entered scope is the outer one or carries a name; its rollback batch
    starts with [ROLLBACK], its commit batch does not. *)
Lemma rollback_batch_prefix (t : BaseTransaction) (c : Conn) :
  _outer_transaction t = true \/ truthy (_savepoint_name t) = true ->
  prefix "ROLLBACK" (rollback_batch t c) = true.
Proof.
  intros H. unfold rollback_batch. rewrite fold_left_append.
  unfold rollback_commands.
  destruct (_outer_transaction t) eqn:Ho.
  - rewrite andb_false_r. destruct (maintenance c); reflexivity.
  - destruct H as [H|H]; [discriminate|]. rewrite H.
    destruct (maintenance c); reflexivity.
Qed.

Lemma commit_batch_prefix (t : BaseTransaction) :
  prefix "ROLLBACK" (commit_batch t) = false.
Proof.
  unfold commit_batch, commit_commands.
  destruct (_outer_transaction t); rewrite ?andb_false_r, ?andb_true_r;
    simpl.
  - reflexivity.
  - destruct (truthy (_savepoint_name t)); reflexivity.
Qed.

(** What a scope on top of the stack sends when it exits. *)
Lemma exit_sent (exc_val : option exn) (t : BaseTransaction) (c : Conn)
    (init : list string) :
  _outer_transaction t && nonempty init = false ->
  sent (conn (snd (_exit_gen exc_val
         {| self := t;
            conn := set_savepoints
                      (init ++ [_savepoint_name t])%list c |})))
  = append (sent c)
      (if match exc_val with
          | None => negb (force_rollback t)
          | Some _ => false
          end
       then commit_batch t else rollback_batch t c).
Proof.
  intros Hok. on_exit exc_val t; try congruence.
  all: try (rewrite String.eqb_refl in Hname; discriminate).
  all: autorewrite with frame; reflexivity.
Qed.


(** C4, as the code has it. When the rollback attempt completes (the
    popped name is the scope's own, the outer assertion holds, the round
    trip succeeds), [_exit_gen] answers true for the explicit rollback
    signal exactly when its target is unset or is this very scope, and
    false for any other target.  It answers true in no other case: an
    attempt that fails is answered false or raises, whatever the target.
    The commit path never answers true. *)
Theorem rollback_signal_swallowed_when_aimed_here :
  forall (target : option nat) (t : BaseTransaction) (c : Conn)
         (init : list string) (top : string),
    let s := {| self := t; conn := set_savepoints (init ++ [top])%list c |} in
    let attempt_completes :=
      String.eqb top (_savepoint_name t)
      && negb (_outer_transaction t && nonempty init)
      && match fst (round_trip (rollback_batch t c) (pgconn c)) with
         | None => true
         | Some _ => false
         end in
    let aimed_here :=
      match target with
      | None => true
      | Some tx => Nat.eqb tx (ident t)
      end in
    (attempt_completes = true ->
     fst (_exit_gen (Some (Rollback target)) s) = Return aimed_here)
    /\ (fst (_exit_gen (Some (Rollback target)) s) = Return true <->
        attempt_completes = true
        /\ (target = None \/ target = Some (ident t)))
    /\ (forall s0 : State,
        force_rollback (self s0) = false ->
        fst (_exit_gen None s0) <> Return true).
Proof.
  intros target t c init top s attempt_completes aimed_here.
  assert (Haim : aimed_here = true <->
                 target = None \/ target = Some (ident t)).
  { subst aimed_here. destruct target as [tx|].
    - rewrite Nat.eqb_eq. split.
      + intros ->. right. reflexivity.
      + intros [H|H]; [discriminate|]. inversion H. reflexivity.
    - split; [left|]; reflexivity. }
  subst s attempt_completes.
  split; [|split].
  - rewrite exit_rollback_run by reflexivity. cbv zeta.
    destruct (String.eqb top (_savepoint_name t)); [|discriminate].
    destruct (_outer_transaction t && nonempty init); [discriminate|].
    destruct (fst (round_trip _ _)); [discriminate|].
    intros _. reflexivity.
  - rewrite exit_rollback_run by reflexivity. cbv zeta.
    destruct (String.eqb top (_savepoint_name t)).
    + destruct (_outer_transaction t && nonempty init).
      * simpl. split; [discriminate|]. intros [H _]. discriminate.
      * destruct (fst (round_trip _ _)); simpl.
        -- split; [discriminate|]. intros [H _]. discriminate.
        -- fold aimed_here. rewrite <- Haim. split.
           ++ intros H. inversion H. split; reflexivity.
           ++ intros [_ ->]. reflexivity.
    + simpl. split; [discriminate|]. intros [H _]. discriminate.
  - intros [t0 c0] Hf. rewrite exit_gen_commit by exact Hf.
    destruct (_commit_gen _) as [[u|e] s']; discriminate.
Qed.

(** [_exit_gen] never clears the [_exited] flag. *)
Lemma exit_keeps_exited (exc_val : option exn) (s : State) :
  _exited (self s) = true ->
  _exited (self (snd (_exit_gen exc_val s))) = true.
Proof.
  intros H.
  destruct (state_shape s) as [(c & E)|(c & init & top & E)]; rewrite E.
  - rewrite exit_empty_run.
    destruct (match exc_val with
              | None => negb (force_rollback (self s))
              | Some _ => false
              end); exact H.
  - on_exit exc_val (self s); reflexivity.
Qed.

Lemma enter_entered (s : State) :
  _entered (self s) = true ->
  _enter_gen s
  = (Raise (TypeError "transaction blocks can be used only once"), s).
Proof.
  intros H. unfold _enter_gen, bind at 1, get_self. cbn [fst snd].
  unfold bind at 1. rewrite H. reflexivity.
Qed.

(** C10. An exit that gets as far as popping the stack marks the scope
    exited on both paths, before the out-of-order error is raised: the
    scope reads terminated from then on, no later call clears the flag and
    the scope cannot be entered again. *)
Theorem failed_exit_consumes_scope :
  forall (exc_val : option exn) (t : BaseTransaction) (c : Conn)
         (init : list string) (top : string),
    let s := {| self := t; conn := set_savepoints (init ++ [top])%list c |} in
    let s' := snd (_exit_gen exc_val s) in
    _exited (self s') = true
    /\ (top <> _savepoint_name t ->
        exists msg,
          fst (_exit_gen exc_val s) = Raise (OutOfOrderTransactionNesting msg)
          /\ _exited (self s') = true)
    /\ (_entered t = true ->
        status (self s') = "terminated"
        /\ _enter_gen s'
           = (Raise (TypeError "transaction blocks can be used only once"),
              s'))
    /\ (forall later : option exn,
        _exited (self (snd (_exit_gen later s'))) = true).
Proof.
  intros exc_val t c init top s s'.
  assert (Hex : _exited (self s') = true).
  { subst s' s. on_exit exc_val t; reflexivity. }
  assert (Hen : _entered (self s') = _entered t).
  { subst s' s. on_exit exc_val t; reflexivity. }
  split; [exact Hex|split; [|split]].
  - intros Hne. eexists. split; [|exact Hex].
    subst s. rewrite exit_mismatch by exact Hne. reflexivity.
  - intros Ht. split.
    + unfold status. rewrite Hen, Ht, Hex. reflexivity.
    + apply enter_entered. rewrite Hen. exact Ht.
  - intros later. apply exit_keeps_exited. exact Hex.
Qed.

(** C8, as the code has it. Entering an entered scope raises [TypeError] at
    once and changes nothing.  Exit carries no such guard: on a scope
    already exited it pops the stack again, and raises no [TypeError]. *)
Theorem entry_is_one_shot_exit_is_not :
  (forall s : State,
      _entered (self s) = true ->
      _enter_gen s
      = (Raise (TypeError "transaction blocks can be used only once"), s))
  /\ (forall (exc_val : option exn) (t : BaseTransaction) (c : Conn)
             (init : list string) (top : string),
        _exited t = true ->
        let s := {| self := t;
                    conn := set_savepoints (init ++ [top])%list c |} in
        _savepoints (conn (snd (_exit_gen exc_val s))) = init
        /\ forall msg, fst (_exit_gen exc_val s) <> Raise (TypeError msg)).
Proof.
  split.
  - apply enter_entered.
  - intros exc_val t c init top _ s. subst s. split.
    + apply exit_stack_popped.
    + intros msg. on_exit exc_val t; discriminate.
Qed.

(** ** Entry *)

(** [_enter_gen] on a scope not yet entered. *)
Lemma enter_run (t : BaseTransaction) (c : Conn) :
  _entered t = false ->
  _enter_gen {| self := t; conn := c |} =
  if is_IDLE (transaction_status (pgconn c)) && nonempty (_savepoints c) then
    (Raise AssertionError,
     {| self := set_outer_transaction true (set_entered true t);
        conn := c |})
  else
    let t' := entered_on t c in
    let c' := set_savepoints (append (_savepoints c) (entry_name t c)) c in
    (round_trip_result (enter_batch t') c,
     {| self := t'; conn := after_round_trip (enter_batch t') c' |}).
Proof.
  intros He. destruct t as [id k name force en ex ou].
  destruct c as [pg sp pr se lg]. simpl in He. subst en.
  unfold _enter_gen, _push_savepoint, _exec_command.
  unfold bind, get_conn, get_self, put_self, put_conn, assert, ret, raise.
  unfold entered_on, entry_name, round_trip_result, after_round_trip,
    enter_batch.
  cbn -[join enter_commands append round_trip str String.append].
  destruct (is_IDLE (transaction_status pg)) eqn:Hi;
    cbn -[join enter_commands append round_trip str String.append].
  - destruct sp as [|x sp];
      cbn -[join enter_commands append round_trip str String.append];
      [|reflexivity].
    destruct (fst (round_trip _ pg)); reflexivity.
  - destruct (truthy name) eqn:Hn;
      cbn -[join enter_commands append round_trip str String.append].
    + destruct (fst (round_trip _ pg)); reflexivity.
    + destruct (fst (round_trip _ pg)); reflexivity.
Qed.

Lemma synthesized_injective (n m : nat) :
  synthesized n = synthesized m -> n = m.
Proof.
  unfold synthesized. intros H. simpl in H. inversion H as [H'].
  apply str_injective in H'. lia.
Qed.

(** Entering an anonymous scope inside a transaction. *)
Lemma enter_anonymous (t : BaseTransaction) (c : Conn) :
  anonymous t ->
  is_IDLE (transaction_status (pgconn c)) = false ->
  let s' := snd (_enter_gen {| self := t; conn := c |}) in
  _savepoint_name (self s') = synthesized (length (_savepoints c))
  /\ _savepoints (conn s')
     = (_savepoints c ++ [synthesized (length (_savepoints c))])%list
  /\ _outer_transaction (self s') = false.
Proof.
  intros [Hn He] Hi. cbv zeta. rewrite enter_run by exact He.
  rewrite Hi. cbn [andb fst snd self conn]. unfold entered_on, entry_name.
  rewrite Hi, Hn. cbn [truthy _savepoint_name _outer_transaction].
  autorewrite with frame. repeat split; reflexivity.
Qed.

Lemma enter_nested_anonymous :
  savepoint_keeps_transaction ->
  forall (ts : list BaseTransaction) (c : Conn),
    Forall anonymous ts ->
    is_IDLE (transaction_status (pgconn c)) = false ->
    exists ts' c',
      enter_nested ts c = Some (ts', c')
      /\ map _savepoint_name ts'
         = map (fun i => synthesized (length (_savepoints c) + i))
             (seq 0 (length ts))
      /\ _savepoints c' = (_savepoints c ++ map _savepoint_name ts')%list.
Proof.
  intros Hwire ts. induction ts as [|t ts IH]; intros c Hts Hi.
  - exists [], c. simpl. rewrite app_nil_r. repeat split; reflexivity.
  - inversion Hts as [|? ? Ht Hts']; subst.
    destruct (enter_anonymous c Ht Hi) as (Hname & Hstack & _).
    destruct Ht as [Hn He].
    cbn [enter_nested]. revert Hname Hstack.
    rewrite enter_run by exact He. rewrite Hi. cbn [andb]. cbv zeta.
    set (t' := entered_on t c).
    assert (Hbatch : enter_batch t' = "SAVEPOINT "
                       ++ escape_identifier (_savepoint_name t')).
    { unfold enter_batch, enter_commands, t', entered_on, entry_name.
      rewrite Hi, Hn. reflexivity. }
    rewrite Hbatch.
    destruct (Hwire (_savepoint_name t') (pgconn c) Hi) as (Hok & Hstay).
    unfold round_trip_result. rewrite Hok. cbn [fst snd self conn].
    intros Hname Hstack.
    match goal with
    | |- context [enter_nested ts ?c1] =>
        destruct (IH c1 Hts') as (ts' & c' & Hrun & Hnames & Hfinal)
    end.
    { autorewrite with frame. exact Hstay. }
    rewrite Hrun. exists (t' :: ts'), c'. split; [reflexivity|].
    rewrite Hstack in Hnames, Hfinal.
    rewrite length_app in Hnames. simpl in Hnames.
    split.
    + cbn [map length seq]. rewrite Hname, Hnames. f_equal.
      * rewrite Nat.add_0_r. reflexivity.
      * rewrite <- seq_shift, map_map. apply map_ext. intros i.
        f_equal. lia.
    + rewrite Hfinal. cbn [map]. rewrite Hname, <- app_assoc. reflexivity.
Qed.

(** C7. An inner scope entered without a name is named after the stack
    depth at entry, depth plus one; scopes nested one inside the other
    without names get the names of consecutive depths, in order and
    pairwise distinct, and the stack grows by exactly these names. *)
Theorem anonymous_names_follow_depth :
  (forall (t : BaseTransaction) (c : Conn),
      anonymous t ->
      is_IDLE (transaction_status (pgconn c)) = false ->
      let s' := snd (_enter_gen {| self := t; conn := c |}) in
      _savepoint_name (self s')
      = "_pg3_" ++ str (length (_savepoints c) + 1)
      /\ _savepoints (conn s')
         = (_savepoints c ++ [_savepoint_name (self s')])%list)
  /\ (savepoint_keeps_transaction ->
      forall (ts : list BaseTransaction) (c : Conn),
        Forall anonymous ts ->
        is_IDLE (transaction_status (pgconn c)) = false ->
        exists ts' c',
          enter_nested ts c = Some (ts', c')
          /\ map _savepoint_name ts'
             = map (fun i => "_pg3_" ++ str (length (_savepoints c) + i + 1))
                 (seq 0 (length ts))
          /\ _savepoints c' = (_savepoints c ++ map _savepoint_name ts')%list
          /\ NoDup (map _savepoint_name ts')).
Proof.
  split.
  - intros t c Ht Hi. destruct (enter_anonymous c Ht Hi) as (Hn & Hs & _).
    cbv zeta. rewrite Hs, Hn. split; reflexivity.
  - intros Hwire ts c Hts Hi.
    destruct (enter_nested_anonymous Hwire c Hts Hi)
      as (ts' & c' & Hrun & Hnames & Hfinal).
    exists ts', c'.
    split; [exact Hrun|split; [exact Hnames|split; [exact Hfinal|]]].
    rewrite Hnames.
    apply NoDup_map_injective; [|apply seq_NoDup].
    intros i j H. apply synthesized_injective in H. lia.
Qed.

(** ** Command text *)

(** C6, as the code has it. Entry sends [BEGIN] for an outer scope and
    [SAVEPOINT <quoted name>] when a name is set; the commit of a named
    inner scope sends [RELEASE <quoted name>], its rollback
    [ROLLBACK TO <quoted name>; RELEASE <quoted name>], without the word
    SAVEPOINT after RELEASE; an outer scope sends [COMMIT], respectively
    [ROLLBACK], also when it carries a name; a rollback batch goes on with
    the maintenance commands of the prepared-statement cache; the commands
    of a batch are joined by [; ]. *)
Theorem emitted_command_text :
  forall (t : BaseTransaction) (c : Conn),
    let q := escape_identifier (_savepoint_name t) in
    enter_batch t
    = (if _outer_transaction t then
         if truthy (_savepoint_name t) then "BEGIN; SAVEPOINT " ++ q
         else "BEGIN"
       else if truthy (_savepoint_name t) then "SAVEPOINT " ++ q
       else EmptyString)
    /\ commit_batch t
       = (if _outer_transaction t then "COMMIT"
          else if truthy (_savepoint_name t) then "RELEASE " ++ q
          else EmptyString)
    /\ rollback_batch t c
       = join "; "
           (List.app
              (if _outer_transaction t then ["ROLLBACK"]
               else if truthy (_savepoint_name t) then
                 ["ROLLBACK TO " ++ q ++ "; RELEASE " ++ q]
               else [])
              (maintenance c))
    /\ (_entered t = false ->
        is_IDLE (transaction_status (pgconn c)) && nonempty (_savepoints c)
        = false ->
        sent (conn (snd (_enter_gen {| self := t; conn := c |})))
        = append (sent c) (enter_batch (entered_on t c)))
    /\ (forall (exc_val : option exn) (init : list string),
        _outer_transaction t && nonempty init = false ->
        sent (conn (snd (_exit_gen exc_val
               {| self := t;
                  conn := set_savepoints
                            (init ++ [_savepoint_name t])%list c |})))
        = append (sent c)
            (if match exc_val with
                | None => negb (force_rollback t)
                | Some _ => false
                end
             then commit_batch t else rollback_batch t c)).
Proof.
  intros t c q. subst q.
  split; [|split; [|split; [|split]]].
  - unfold enter_batch, enter_commands.
    destruct (_outer_transaction t), (truthy (_savepoint_name t));
      reflexivity.
  - unfold commit_batch, commit_commands.
    destruct (_outer_transaction t), (truthy (_savepoint_name t));
      reflexivity.
  - unfold rollback_batch, rollback_commands. rewrite fold_left_append.
    destruct (_outer_transaction t), (truthy (_savepoint_name t));
      reflexivity.
  - intros He Hok. rewrite enter_run by exact He. rewrite Hok.
    cbv zeta. cbn [fst snd conn]. autorewrite with frame. reflexivity.
  - intros exc_val init Hok. apply exit_sent. exact Hok.
Qed.

(** ** Construction *)

(** C9, as the code has it. No constructor touches the connection.  In
    [psycopg/transaction.py] the constructor does not even look at it: the
    name stays the one given (empty when none) and the outer flag false,
    and both are assigned by the entry, from the status and the depth found
    then.  In the older [psycopg3/transaction.py] the constructor itself
    reads the status and the depth, and fixes the outer flag and the
    synthesized name, which the entry pushes as they are. *)
Theorem construction_leaves_connection_alone :
  (forall (id : nat) (k : TransactionClass) (name : option string)
          (force : bool) (c c0 : Conn),
      snd (__init__ id k name force c) = c
      /\ fst (__init__ id k name force c) = fst (__init__ id k name force c0)
      /\ exists t,
           fst (__init__ id k name force c) = Return t
           /\ _savepoint_name t
              = match name with
                | Some n => n
                | None => EmptyString
                end
           /\ _outer_transaction t = false
           /\ _entered t = false)
  /\ (forall (t : BaseTransaction) (c : Conn),
        _entered t = false ->
        let s' := snd (_enter_gen {| self := t; conn := c |}) in
        _outer_transaction (self s')
        = is_IDLE (transaction_status (pgconn c))
        /\ (is_IDLE (transaction_status (pgconn c))
              && nonempty (_savepoints c) = false ->
            _savepoint_name (self s') = entry_name t c))
  /\ (forall (name : option string) (force : bool) (c : Conn),
        snd (Psycopg3.__init__ name force c) = c
        /\ (is_IDLE (transaction_status (pgconn c)) = false ->
            exists t,
              fst (Psycopg3.__init__ name force c) = Return t
              /\ Psycopg3._outer_transaction t = false
              /\ Psycopg3._savepoint_name t
                 = match name with
                   | Some (String a n) => String a n
                   | _ => "s" ++ str (length (_savepoints c) + 1)
                   end)
        /\ (is_IDLE (transaction_status (pgconn c)) = true ->
            _savepoints c = [] ->
            exists t,
              fst (Psycopg3.__init__ name force c) = Return t
              /\ Psycopg3._outer_transaction t = true))
  /\ (forall (t : Psycopg3.BaseTransaction) (c : Conn),
        Psycopg3._yolo t = true ->
        Psycopg3._outer_transaction t && nonempty (_savepoints c) = false ->
        let s' := snd (Psycopg3._enter_commands (t, c)) in
        Psycopg3._savepoint_name (fst s') = Psycopg3._savepoint_name t
        /\ Psycopg3._outer_transaction (fst s')
           = Psycopg3._outer_transaction t
        /\ _savepoints (snd s')
           = append (_savepoints c) (Psycopg3._savepoint_name t)).
Proof.
  split; [|split; [|split]].
  - intros id k name force c c0. repeat split.
    eexists. split; [reflexivity|].
    destruct name as [[|a n]|]; repeat split; reflexivity.
  - intros t c He. cbv zeta. rewrite enter_run by exact He.
    destruct (is_IDLE (transaction_status (pgconn c))
              && nonempty (_savepoints c)) eqn:Hok.
    + split; [|discriminate]. apply andb_true_iff in Hok.
      destruct Hok as [-> _]. reflexivity.
    + split; [reflexivity|]. intros _. reflexivity.
  - intros name force c. unfold Psycopg3.__init__. split; [|split].
    + destruct (is_IDLE (transaction_status (pgconn c))); [|reflexivity].
      unfold bind, assert.
      destruct (nonempty (_savepoints c)); reflexivity.
    + intros ->. eexists. split; [reflexivity|]. split; [reflexivity|].
      destruct name as [[|a n]|]; reflexivity.
    + intros -> ->. eexists. split; reflexivity.
  - intros t c Hy Hok. unfold Psycopg3._enter_commands. rewrite Hy.
    cbn [negb Psycopg3._outer_transaction]. rewrite Hok.
    repeat split; reflexivity.
Qed.

(** ** Well-nested scopes *)

(** Induction over blocks, with the hypothesis for every nested block. *)
Lemma Block_nested_ind (P : Block -> Prop) :
  (forall id k name force body signal,
      Forall P body -> P (With id k name force body signal)) ->
  forall b, P b.
Proof.
  intros H. fix IH 1. intros [id k name force body signal]. apply H.
  revert body. fix IHbody 1. intros [|b body].
  - constructor.
  - constructor; [apply IH|apply IHbody].
Qed.

Lemma run_With id k name force body signal (c : Conn) :
  run (With id k name force body signal) c =
  with_statement
    {| ident := id; cls := k;
       _savepoint_name :=
         match name with
         | Some n => if truthy n then n else EmptyString
         | None => EmptyString
         end;
       force_rollback := force; _entered := false; _exited := false;
       _outer_transaction := false |}
    (run_body body ;;
     match signal with
     | None => ret tt
     | Some v => raise (exn_of_signal v)
     end) c.
Proof. reflexivity. Qed.

Lemma same_connection (c : Conn) : set_savepoints (_savepoints c) c = c.
Proof. destruct c; reflexivity. Qed.

Lemma balanced_refl (c : Conn) :
  stack_consistent c -> balanced c (Return tt, c).
Proof.
  intros H. repeat split; try assumption.
  exists []. rewrite app_nil_r. split; [reflexivity|constructor].
Qed.

Lemma balanced_trans (c c1 : Conn) (r1 : result unit)
    (out : result unit * Conn) :
  balanced c (r1, c1) -> balanced c1 out -> balanced c out.
Proof.
  intros (Hs1 & _ & _ & new1 & Hl1 & Hb1) (Hs2 & Hc2 & Hr2 & new2 & Hl2 & Hb2).
  cbn [fst snd] in *. repeat split.
  - rewrite Hs2. exact Hs1.
  - exact Hc2.
  - exact Hr2.
  - exists (new1 ++ new2)%list. split.
    + rewrite Hl2, Hl1, app_assoc. reflexivity.
    + apply Forall_app. split; assumption.
Qed.

Lemma signal_external (signal : Signal) :
  external (exn_of_signal signal) = true.
Proof. destruct signal; reflexivity. Qed.

(** The batches of an entered scope, read as the wire hypotheses need. *)
Lemma enter_batch_outer (t : BaseTransaction) :
  _outer_transaction t = true ->
  enter_batch t
  = if truthy (_savepoint_name t) then
      "BEGIN; SAVEPOINT " ++ escape_identifier (_savepoint_name t)
    else "BEGIN".
Proof.
  intros Ho. unfold enter_batch, enter_commands. rewrite Ho.
  destruct (truthy (_savepoint_name t)); reflexivity.
Qed.

Lemma enter_batch_inner (t : BaseTransaction) :
  _outer_transaction t = false ->
  truthy (_savepoint_name t) = true ->
  enter_batch t = "SAVEPOINT " ++ escape_identifier (_savepoint_name t).
Proof.
  intros Ho Hn. unfold enter_batch, enter_commands. rewrite Ho, Hn.
  reflexivity.
Qed.

Lemma commit_batch_inner (t : BaseTransaction) :
  _outer_transaction t = false ->
  truthy (_savepoint_name t) = true ->
  commit_batch t = "RELEASE " ++ escape_identifier (_savepoint_name t).
Proof.
  intros Ho Hn. unfold commit_batch, commit_commands. rewrite Ho, Hn.
  reflexivity.
Qed.

Lemma rollback_batch_inner (t : BaseTransaction) (c : Conn) :
  _outer_transaction t = false ->
  truthy (_savepoint_name t) = true ->
  rollback_batch t c
  = join "; "
      (("ROLLBACK TO " ++ escape_identifier (_savepoint_name t)
          ++ "; RELEASE " ++ escape_identifier (_savepoint_name t))
         :: maintenance c).
Proof.
  intros Ho Hn. unfold rollback_batch, rollback_commands.
  rewrite fold_left_append, Ho, Hn. reflexivity.
Qed.

Lemma entry_name_truthy (t : BaseTransaction) (c : Conn) :
  is_IDLE (transaction_status (pgconn c)) = false ->
  truthy (entry_name t c) = true.
Proof.
  intros Hi. unfold entry_name. rewrite Hi.
  destruct (truthy (_savepoint_name t)) eqn:Hn; [exact Hn|reflexivity].
Qed.

(** The exit of a scope that sits on top of the stack. *)
Lemma exit_balanced (exc_val : option exn) (t : BaseTransaction) (c : Conn)
    (init : list string) :
  well_behaved_wire ->
  (_outer_transaction t = true -> init = []) ->
  (_outer_transaction t = false ->
   is_IDLE (transaction_status (pgconn c)) = false
   /\ truthy (_savepoint_name t) = true) ->
  let out := _exit_gen exc_val
               {| self := t;
                  conn := set_savepoints
                            (init ++ [_savepoint_name t])%list c |} in
  _savepoints (conn (snd out)) = init
  /\ stack_consistent (conn (snd out))
  /\ match fst out with
     | Return _ => True
     | Raise e => external e = true
     end
  /\ exists new, logged (conn (snd out)) = (logged c ++ new)%list
                 /\ Forall benign new.
Proof.
  intros Hwire Houter Hinner out.
  assert (Hassert : _outer_transaction t && nonempty init = false).
  { destruct (_outer_transaction t) eqn:Ho; [|reflexivity].
    rewrite (Houter eq_refl). reflexivity. }
  assert (Hcons : forall (batch : string) (c0 : Conn),
             pgconn c0 = pgconn c ->
             _savepoints c0 = init ->
             (_outer_transaction t = false ->
              batch = commit_batch t \/ batch = rollback_batch t c) ->
             stack_consistent (after_round_trip batch c0)).
  { intros batch c0 Hpg Hst Hbatch Hidle. autorewrite with frame.
    rewrite Hst. destruct (_outer_transaction t) eqn:Ho.
    - apply Houter. reflexivity.
    - exfalso. destruct (Hinner eq_refl) as (Hi & Hn).
      revert Hidle. autorewrite with frame. rewrite Hpg.
      destruct (Hbatch eq_refl) as [-> | ->].
      + rewrite (commit_batch_inner _ Ho Hn).
        rewrite (release_keeps Hwire _ _ Hi). discriminate.
      + rewrite (rollback_batch_inner _ c Ho Hn). unfold maintenance.
        rewrite (rollback_to_keeps Hwire _ _ _ Hi). discriminate. }
  assert (Hdebug : exists new,
             logged (after_debug exc_val c) = (logged c ++ new)%list
             /\ Forall benign new).
  { destruct exc_val as [[]|];
      try (exists []; rewrite app_nil_r; split; [reflexivity|constructor]).
    exists [Debug "Explicit rollback from: "]. split; [reflexivity|].
    repeat constructor. }
  destruct Hdebug as (dbg & Hdbg & Hbenign).
  assert (Hrollback :
    match exc_val with None => force_rollback t | Some _ => true end = true ->
    let out := _exit_gen exc_val
                 {| self := t;
                    conn := set_savepoints
                              (init ++ [_savepoint_name t])%list c |} in
    _savepoints (conn (snd out)) = init
    /\ stack_consistent (conn (snd out))
    /\ match fst out with
       | Return _ => True
       | Raise e => external e = true
       end
    /\ exists new, logged (conn (snd out)) = (logged c ++ new)%list
                   /\ Forall benign new).
  { intros Hp. cbv zeta. rewrite exit_rollback_run by exact Hp. cbv zeta.
    rewrite String.eqb_refl, Hassert.
    assert (Hc : stack_consistent
                   (after_round_trip (rollback_batch t c)
                      (after_clear
                         (set_savepoints init (after_debug exc_val c))))).
    { apply Hcons.
      - autorewrite with frame. reflexivity.
      - autorewrite with frame. reflexivity.
      - intros _. right. reflexivity. }
    destruct (fst (round_trip _ _)) as [msg|] eqn:Hans; cbn [fst snd conn].
    - split; [|split; [|split; [exact I|]]].
      + autorewrite with frame. reflexivity.
      + exact Hc.
      + exists (dbg ++ [Warning (ident t) (OperationalError msg)])%list.
        split.
        * unfold after_warning, append. cbn [logged].
          unfold after_round_trip. cbn [logged].
          rewrite logged_after_clear. cbn [set_savepoints logged].
          rewrite Hdbg, app_assoc. reflexivity.
        * apply Forall_app. split; [exact Hbenign|].
          repeat constructor.
    - split; [|split; [|split; [exact I|]]].
      + autorewrite with frame. reflexivity.
      + exact Hc.
      + exists dbg. split; [|exact Hbenign].
        unfold after_round_trip. cbn [logged].
        rewrite logged_after_clear. cbn [set_savepoints logged].
        exact Hdbg. }
  subst out.
  destruct exc_val as [e|]; [|destruct (force_rollback t) eqn:Hf].
  - apply Hrollback. reflexivity.
  - apply Hrollback. reflexivity.
  - rewrite exit_commit_run by exact Hf. cbv zeta.
    rewrite String.eqb_refl, Hassert. cbn [fst snd conn].
    split; [|split; [|split]].
    + reflexivity.
    + apply Hcons; [reflexivity|reflexivity|]. intros _. left. reflexivity.
    + destruct (fst (round_trip _ _)); [reflexivity|exact I].
    + exists []. rewrite app_nil_r. split; [reflexivity|constructor].
Qed.

(** One [with] statement around a block that is itself balanced. *)
Lemma with_statement_balanced (t : BaseTransaction)
    (block : M Conn unit) (c : Conn) :
  well_behaved_wire ->
  _entered t = false ->
  stack_consistent c ->
  (forall c1, stack_consistent c1 -> balanced c1 (block c1)) ->
  balanced c (with_statement t block c).
Proof.
  intros Hwire He Hc Hblock. unfold with_statement.
  rewrite enter_run by exact He.
  assert (Hassert : is_IDLE (transaction_status (pgconn c))
                    && nonempty (_savepoints c) = false).
  { destruct (is_IDLE (transaction_status (pgconn c))) eqn:Hi;
      [|reflexivity].
    rewrite (Hc Hi). reflexivity. }
  rewrite Hassert. cbv zeta.
  set (t' := entered_on t c).
  set (c1 := after_round_trip (enter_batch t')
               (set_savepoints (append (_savepoints c) (entry_name t c)) c)).
  assert (Houter : _outer_transaction t'
                   = is_IDLE (transaction_status (pgconn c)))
    by reflexivity.
  assert (Hname : _savepoint_name t' = entry_name t c) by reflexivity.
  assert (Hanswer : round_trip_result (enter_batch t') c = Return tt
                    /\ is_IDLE (transaction_status (pgconn c1)) = false).
  { unfold round_trip_result, c1. autorewrite with frame.
    destruct (is_IDLE (transaction_status (pgconn c))) eqn:Hi.
    - rewrite (enter_batch_outer t' Houter).
      destruct (truthy (_savepoint_name t')).
      + destruct (begin_savepoint_opens Hwire (_savepoint_name t') _ Hi)
          as (-> & ->).
        split; reflexivity.
      + destruct (begin_opens Hwire _ Hi) as (-> & ->).
        split; reflexivity.
    - assert (Hn : truthy (_savepoint_name t') = true).
      { rewrite Hname. apply entry_name_truthy. exact Hi. }
      rewrite (enter_batch_inner _ Houter Hn).
      destruct (savepoint_keeps Hwire (_savepoint_name t') _ Hi)
        as (-> & ->).
      split; reflexivity. }
  destruct Hanswer as (-> & Hin).
  assert (Hc1 : stack_consistent c1).
  { intros Hidle. rewrite Hin in Hidle. discriminate. }
  assert (Hs1 : _savepoints c1
                = (_savepoints c ++ [_savepoint_name t'])%list)
    by reflexivity.
  assert (Hl1 : logged c1 = logged c) by reflexivity.
  cbn [self conn].
  destruct (block c1) as [r c2] eqn:Hrun.
  destruct (Hblock c1 Hc1) as (Hs2 & Hc2 & Hr2 & new2 & Hl2 & Hb2).
  rewrite Hrun in Hs2, Hc2, Hr2, Hl2. cbn [fst snd] in Hs2, Hc2, Hr2, Hl2.
  assert (Hin2 : is_IDLE (transaction_status (pgconn c2)) = false).
  { destruct (is_IDLE (transaction_status (pgconn c2))) eqn:Hi;
      [|reflexivity].
    specialize (Hc2 Hi). rewrite Hc2 in Hs2. rewrite Hs1 in Hs2.
    destruct (_savepoints c); discriminate. }
  rewrite <- (same_connection c2), Hs2, Hs1.
  set (exc_val := match r with Return _ => None | Raise e => Some e end).
  destruct (@exit_balanced exc_val t' c2 (_savepoints c) Hwire)
    as (Hs3 & Hc3 & Hr3 & new3 & Hl3 & Hb3).
  { rewrite Houter. exact Hc. }
  { rewrite Houter. intros Hi. split; [exact Hin2|].
    rewrite Hname. apply entry_name_truthy. exact Hi. }
  destruct (_exit_gen exc_val _) as [[[|]|e] s'];
    cbn [fst snd] in Hs3, Hc3, Hr3, Hl3 |- *.
  all: split; [exact Hs3|split; [exact Hc3|split]].
  all: cbn [fst snd external_result].
  all: try exact I.
  all: try exact Hr2.
  all: try exact Hr3.
  all: exists (new2 ++ new3)%list;
    (split; [rewrite Hl3, Hl2, Hl1, app_assoc; reflexivity
            |apply Forall_app; split; assumption]).
Qed.

Lemma run_body_balanced (bs : list Block) :
  Forall (fun b => forall c, stack_consistent c -> balanced c (run b c)) bs ->
  forall c, stack_consistent c -> balanced c (run_body bs c).
Proof.
  intros Hbs. induction Hbs as [|b bs Hb Hbs IH]; intros c Hc.
  - apply balanced_refl. exact Hc.
  - cbn [run_body]. unfold bind.
    pose proof (Hb c Hc) as H1.
    destruct (run b c) as [[u|e] c1] eqn:Hrun.
    + apply (balanced_trans H1). apply IH. apply H1.
    + exact H1.
Qed.

Lemma run_balanced :
  well_behaved_wire ->
  forall (b : Block) (c : Conn), stack_consistent c -> balanced c (run b c).
Proof.
  intros Hwire b. induction b as [id k name force body signal IH]
    using Block_nested_ind.
  intros c Hc. rewrite run_With.
  apply with_statement_balanced; try assumption; [reflexivity|].
  intros c1 Hc1. unfold bind.
  pose proof (run_body_balanced IH Hc1) as H1.
  destruct (run_body body c1) as [[u|e] c2] eqn:Hrun; [|exact H1].
  destruct signal as [v|].
  - destruct H1 as (Hs & Hcons & _ & Hlog).
    split; [exact Hs|split; [exact Hcons|split; [|exact Hlog]]].
    apply signal_external.
  - destruct H1 as (Hs & Hcons & _ & Hlog).
    split; [exact Hs|split; [exact Hcons|split; [exact I|exact Hlog]]].
Qed.


End Properties.

(* ------------------------------------------------------------------ *)
(** * The statements on the test doubles *)

Lemma reliable_savepoint_keeps :
  @savepoint_keeps_transaction TransactionStatus bool Reliable.
Proof.
  intros name w Hw. split; [reflexivity|]. exact Hw.
Qed.

Lemma reliable_well_behaved :
  @well_behaved_wire TransactionStatus bool Reliable.
Proof.
  constructor.
  - intros w _. split; reflexivity.
  - intros name w _. split; reflexivity.
  - exact reliable_savepoint_keeps.
  - intros name w Hw. exact Hw.
  - intros name p w Hw. destruct p; exact Hw.
Qed.


(** Three anonymous scopes nested under an outer one. *)
Lemma anonymous_names_follow_depth_witness :
  @savepoint_keeps_transaction TransactionStatus bool Reliable
  /\ Forall anonymous
       [fresh_scope 2 EmptyString; fresh_scope 3 EmptyString;
        fresh_scope 4 EmptyString]
  /\ exists ts' c',
       enter_nested
         [fresh_scope 2 EmptyString; fresh_scope 3 EmptyString;
          fresh_scope 4 EmptyString]
         (reliable_in_transaction [EmptyString]) = Some (ts', c')
       /\ map _savepoint_name ts' = ["_pg3_2"; "_pg3_3"; "_pg3_4"]
       /\ _savepoints c'
          = (_savepoints (reliable_in_transaction [EmptyString])
             ++ map _savepoint_name ts')%list
       /\ NoDup (map _savepoint_name ts').
Proof.
  split; [exact reliable_savepoint_keeps|].
  assert (H : Forall anonymous
                [fresh_scope 2 EmptyString; fresh_scope 3 EmptyString;
                 fresh_scope 4 EmptyString]).
  { repeat constructor. }
  split; [exact H|].
  exact (proj2 (@anonymous_names_follow_depth TransactionStatus bool Reliable)
           reliable_savepoint_keeps _ (reliable_in_transaction [EmptyString])
           H eq_refl).
Defined.

(** C2 at work: the rollback of an inner scope fails on the wire while a
    plain error is in flight; the failure is logged and the answer is
    false. *)
Example rollback_failure_is_logged :
  _exit_gen (Some (OperationalError "boom"))
    {| self := entered_scope 2 "x" false;
       conn := scripted_in_transaction [EmptyString; "x"]
                 [Some "server closed the connection"] |}
  = (Return false,
     {| self := set_exited true (entered_scope 2 "x" false);
        conn :=
          {| pgconn := (INERROR, []);
             _savepoints := [EmptyString];
             _prepared := false;
             sent := ["ROLLBACK TO " ++ quote_ident "x" ++ "; RELEASE "
                      ++ quote_ident "x"];
             logged := [Warning 2 (OperationalError
                                     "server closed the connection")] |} |}).
Proof. reflexivity. Qed.

(** C4 does not hold as the spec words it: the explicit rollback signal
    without a target reaches the exit of its scope, the rollback fails on
    the wire, and the exit answers false although the target is unset. *)
Lemma rollback_signal_not_swallowed_when_rollback_fails :
  fst (_exit_gen (Some (Rollback None))
         {| self := entered_scope 2 "x" false;
            conn := scripted_in_transaction [EmptyString; "x"]
                      [Some "server closed the connection"] |})
  = Return false
  /\ ~ (fst (_exit_gen (Some (Rollback None))
              {| self := entered_scope 2 "x" false;
                 conn := scripted_in_transaction [EmptyString; "x"]
                           [Some "server closed the connection"] |})
        = Return true
        <-> (@None nat = None
             \/ @None nat = Some (ident (entered_scope 2 "x" false)))).
Proof.
  split; [reflexivity|].
  intros [_ H]. specialize (H (or_introl eq_refl)). discriminate H.
Qed.

(** C6 does not hold as the spec words it: in the scenario of the spec the
    inner commit sends RELEASE and the quoted name, without the word
    SAVEPOINT; so does the rollback. *)
Lemma release_is_sent_without_savepoint_keyword :
  sent (snd (run scenario_commit (reliable_connection IDLE)))
  = ["BEGIN"; "SAVEPOINT " ++ quote_ident "x";
     "RELEASE " ++ quote_ident "x"; "COMMIT"]
  /\ sent (snd (run scenario_commit (reliable_connection IDLE)))
     <> ["BEGIN"; "SAVEPOINT " ++ quote_ident "x";
         "RELEASE SAVEPOINT " ++ quote_ident "x"; "COMMIT"]
  /\ sent (snd (run scenario_error (reliable_connection IDLE)))
     = ["BEGIN"; "SAVEPOINT " ++ quote_ident "x";
        "ROLLBACK TO " ++ quote_ident "x" ++ "; RELEASE " ++ quote_ident "x";
        "ROLLBACK"]
  /\ sent (snd (run scenario_error (reliable_connection IDLE)))
     <> ["BEGIN"; "SAVEPOINT " ++ quote_ident "x";
         "ROLLBACK TO " ++ quote_ident "x" ++ "; RELEASE SAVEPOINT "
           ++ quote_ident "x";
         "ROLLBACK"].
Proof.
  repeat split; try reflexivity; vm_compute; discriminate.
Qed.

(** C8 does not hold as the spec words it: two nested scopes carry the same
    name; the inner one exits, and exits again: the second exit is answered
    like the first and takes the other savepoint off the stack. *)
Lemma second_exit_pops_again :
  enter_nested [fresh_scope 2 "x"; fresh_scope 3 "x"]
    (reliable_in_transaction [EmptyString])
  = Some ([entered_scope 2 "x" false; entered_scope 3 "x" false],
          {| pgconn := INTRANS;
             _savepoints := [EmptyString; "x"; "x"];
             _prepared := false;
             sent := ["SAVEPOINT " ++ quote_ident "x";
                      "SAVEPOINT " ++ quote_ident "x"];
             logged := [] |})
  /\ _exited (self (snd (_exit_gen None
                 {| self := entered_scope 3 "x" false;
                    conn := reliable_in_transaction
                              [EmptyString; "x"; "x"] |}))) = true
  /\ _savepoints (conn (snd (_exit_gen None
                 {| self := entered_scope 3 "x" false;
                    conn := reliable_in_transaction
                              [EmptyString; "x"; "x"] |})))
     = [EmptyString; "x"]
  /\ fst (_exit_gen None (snd (_exit_gen None
             {| self := entered_scope 3 "x" false;
                conn := reliable_in_transaction
                          [EmptyString; "x"; "x"] |})))
     = Return false
  /\ _savepoints (conn (snd (_exit_gen None (snd (_exit_gen None
             {| self := entered_scope 3 "x" false;
                conn := reliable_in_transaction
                          [EmptyString; "x"; "x"] |})))))
     = [EmptyString].
Proof.
  repeat split; reflexivity.
Qed.

(** C9 does not hold as the spec words it: the older constructor, called
    inside a transaction with one level open and no name, synthesizes the
    name by itself; called on an idle connection it sets the outer flag. *)
Lemma older_constructor_names_at_construction :
  fst (Psycopg3.__init__ None false (reliable_in_transaction [EmptyString]))
  = Return {| Psycopg3.force_rollback := false;
              Psycopg3._yolo := true;
              Psycopg3._outer_transaction := false;
              Psycopg3._savepoint_name := "s2" |}
  /\ fst (Psycopg3.__init__ None false (reliable_connection IDLE))
     = Return {| Psycopg3.force_rollback := false;
                 Psycopg3._yolo := true;
                 Psycopg3._outer_transaction := true;
                 Psycopg3._savepoint_name := EmptyString |}
  /\ fst (__init__ 1 SyncTransaction None false
            (reliable_in_transaction [EmptyString]))
     = Return (fresh_scope 1 EmptyString).
Proof.
  repeat split; reflexivity.
Qed.

(* ------------------------------------------------------------------ *)
(** * Further properties of [psycopg/transaction.py] *)

Section Edges.

Context {PGconn PrepareManager : Type}.
Context {CO : Collaborators PGconn PrepareManager}.

Abbreviation Conn := (@Connection PGconn PrepareManager).
Abbreviation State := (@St PGconn PrepareManager).

Lemma prepared_after_round_trip (batch : string) (c : Conn) :
  _prepared (after_round_trip batch c) = _prepared c.
Proof. reflexivity. Qed.

Lemma prepared_after_warning (id : nat) (e : exn) (c : Conn) :
  _prepared (after_warning id e c) = _prepared c.
Proof. reflexivity. Qed.

Lemma prepared_set_savepoints (l : list string) (c : Conn) :
  _prepared (set_savepoints l c) = _prepared c.
Proof. reflexivity. Qed.

Lemma prepared_after_debug (exc_val : option exn) (c : Conn) :
  _prepared (after_debug exc_val c) = _prepared c.
Proof. apply after_debug_frame. Qed.

Lemma after_clear_set_savepoints (l : list string) (c : Conn) :
  _prepared (after_clear (set_savepoints l c)) = _prepared (after_clear c).
Proof.
  unfold after_clear. cbn [set_savepoints _prepared].
  destruct (fst (clear (_prepared c))); reflexivity.
Qed.

Lemma after_clear_after_debug (exc_val : option exn) (c : Conn) :
  _prepared (after_clear (after_debug exc_val c))
  = _prepared (after_clear c).
Proof.
  unfold after_clear. rewrite prepared_after_debug.
  destruct (fst (clear (_prepared c))); reflexivity.
Qed.

Lemma logged_set_savepoints (l : list string) (c : Conn) :
  logged (set_savepoints l c) = logged c.
Proof. reflexivity. Qed.

Lemma logged_after_round_trip (batch : string) (c : Conn) :
  logged (after_round_trip batch c) = logged c.
Proof. reflexivity. Qed.

Lemma logged_after_warning (id : nat) (e : exn) (c : Conn) :
  logged (after_warning id e c) = append (logged c) (Warning id e).
Proof. reflexivity. Qed.

Create Rewrite HintDb more_frame.

#[local] Hint Rewrite @savepoints_after_clear @pgconn_after_clear
  @sent_after_clear @logged_after_clear @savepoints_after_debug
  @pgconn_after_debug @sent_after_debug @savepoints_set
  @pgconn_set_savepoints @sent_set_savepoints @savepoints_after_round_trip
  @sent_after_round_trip @pgconn_after_round_trip @savepoints_after_warning
  @sent_after_warning @pgconn_after_warning @prepared_after_round_trip
  @prepared_after_warning @prepared_set_savepoints @prepared_after_debug
  @after_clear_set_savepoints @after_clear_after_debug
  @logged_set_savepoints @logged_after_round_trip @logged_after_warning
  : more_frame.

(** Splits on the branch of [_exit_gen] and on what the pop finds. *)
Ltac exit_cases exc_val t :=
  first
    [ destruct exc_val as [?e|];
      [ rewrite !exit_rollback_run by reflexivity
      | let Hf := fresh "Hforce" in
        destruct (force_rollback t) eqn:Hf;
        [ rewrite !exit_rollback_run by exact Hf
        | rewrite !exit_commit_run by exact Hf ] ] ];
  cbv zeta;
  destruct (String.eqb _ (_savepoint_name t)) eqn:?Hname;
  try (destruct (_outer_transaction t && nonempty _) eqn:?Hassert);
  try (destruct (fst (round_trip _ _)) eqn:?Hanswer);
  cbn [fst snd conn self].

(** X1. When the round trip of the entry fails, [_enter_gen] raises the
    error of the wire after the name was pushed and the scope marked
    entered: the [with] statement raises without running the block or the
    exit, and the stack stays one name longer. *)
Theorem entry_failure_leaves_scope_on_stack :
  forall (t : BaseTransaction) (c : Conn) (msg : string)
         (block : M Conn unit),
    _entered t = false ->
    is_IDLE (transaction_status (pgconn c)) && nonempty (_savepoints c)
    = false ->
    fst (round_trip (enter_batch (entered_on t c)) (pgconn c)) = Some msg ->
    _enter_gen {| self := t; conn := c |}
    = (Raise (OperationalError msg),
       {| self := entered_on t c; conn := block_start t c |})
    /\ _savepoints (block_start t c)
       = (_savepoints c ++ [entry_name t c])%list
    /\ _entered (entered_on t c) = true
    /\ with_statement t block c
       = (Raise (OperationalError msg), block_start t c).
Proof.
  intros t c msg block He Hok Hans.
  assert (Hrun : _enter_gen {| self := t; conn := c |}
                 = (Raise (OperationalError msg),
                    {| self := entered_on t c; conn := block_start t c |})).
  { rewrite enter_run by exact He. rewrite Hok. cbv zeta.
    unfold round_trip_result. rewrite Hans. reflexivity. }
  split; [exact Hrun|]. split; [reflexivity|]. split; [reflexivity|].
  unfold with_statement. rewrite Hrun. reflexivity.
Qed.

(** X2. Entering a scope on an idle connection whose stack is not empty
    fails the assertion of [_push_savepoint]: nothing is pushed or sent,
    yet the scope is marked entered, so that a second attempt raises
    [TypeError]. *)
Theorem outer_entry_on_open_stack :
  forall (t : BaseTransaction) (c : Conn),
    _entered t = false ->
    is_IDLE (transaction_status (pgconn c)) = true ->
    _savepoints c <> [] ->
    _enter_gen {| self := t; conn := c |}
    = (Raise AssertionError,
       {| self := set_outer_transaction true (set_entered true t);
          conn := c |})
    /\ _enter_gen (snd (_enter_gen {| self := t; conn := c |}))
       = (Raise (TypeError "transaction blocks can be used only once"),
          snd (_enter_gen {| self := t; conn := c |})).
Proof.
  intros t c He Hi Hs.
  assert (Hrun : _enter_gen {| self := t; conn := c |}
                 = (Raise AssertionError,
                    {| self := set_outer_transaction true (set_entered true t);
                       conn := c |})).
  { rewrite enter_run by exact He. rewrite Hi.
    destruct (_savepoints c); [contradiction|reflexivity]. }
  split; [exact Hrun|]. rewrite Hrun. cbn [snd].
  apply enter_entered. reflexivity.
Qed.

(** X3. Exit on an empty stack: the commit path raises the [IndexError] of
    the pop and changes nothing; the rollback path catches it, logs it as a
    warning and answers false; neither marks the scope exited nor sends a
    command. *)
Theorem exit_on_empty_stack :
  forall (exc_val : option exn) (t : BaseTransaction) (c : Conn),
    let s := {| self := t; conn := set_savepoints [] c |} in
    let commits :=
      match exc_val with
      | None => negb (force_rollback t)
      | Some _ => false
      end in
    self (snd (_exit_gen exc_val s)) = t
    /\ _savepoints (conn (snd (_exit_gen exc_val s))) = []
    /\ sent (conn (snd (_exit_gen exc_val s))) = sent c
    /\ pgconn (conn (snd (_exit_gen exc_val s))) = pgconn c
    /\ (commits = true ->
        _exit_gen exc_val s = (Raise (IndexError "pop from empty list"), s))
    /\ (commits = false ->
        fst (_exit_gen exc_val s) = Return false
        /\ logged (conn (snd (_exit_gen exc_val s)))
           = append (logged (after_debug exc_val c))
               (Warning (ident t) (IndexError "pop from empty list"))).
Proof.
  intros exc_val t c s commits. subst s commits.
  rewrite exit_empty_run.
  destruct (match exc_val with
            | None => negb (force_rollback t)
            | Some _ => false
            end); cbn [fst snd self conn];
    autorewrite with more_frame.
  - repeat split; try reflexivity; discriminate.
  - repeat split; try reflexivity; discriminate.
Qed.

(** X4. Two scopes exited in the wrong order, the one entered first
    exiting first: both exits raise the out-of-order error, both scopes
    are marked exited, the stack loses both names and no command is sent
    for either. *)
Theorem swapped_exits_both_raise :
  forall (first second : option exn) (a b : BaseTransaction) (c : Conn)
         (init : list string),
    _savepoint_name a <> _savepoint_name b ->
    let out_a :=
      _exit_gen first
        {| self := a;
           conn := set_savepoints
                     (init ++ [_savepoint_name a; _savepoint_name b])%list
                     c |} in
    let out_b := _exit_gen second {| self := b; conn := conn (snd out_a) |} in
    fst out_a
    = Raise (OutOfOrderTransactionNesting
               (nesting_message a c (exit_action first a)
                  (_savepoint_name b)))
    /\ (exists msg, fst out_b = Raise (OutOfOrderTransactionNesting msg))
    /\ _exited (self (snd out_a)) = true
    /\ _exited (self (snd out_b)) = true
    /\ _savepoints (conn (snd out_a)) = (init ++ [_savepoint_name a])%list
    /\ _savepoints (conn (snd out_b)) = init
    /\ sent (conn (snd out_b)) = sent c.
Proof.
  intros first second a b c init Hne out_a out_b.
  assert (Ha : out_a
    = (Raise (OutOfOrderTransactionNesting
                (nesting_message a c (exit_action first a)
                   (_savepoint_name b))),
       {| self := set_exited true a;
          conn := set_savepoints (init ++ [_savepoint_name a])%list
                    (after_debug first c) |})).
  { subst out_a.
    replace (init ++ [_savepoint_name a; _savepoint_name b])%list
      with ((init ++ [_savepoint_name a]) ++ [_savepoint_name b])%list
      by (rewrite <- app_assoc; reflexivity).
    apply exit_mismatch. intros H. apply Hne. symmetry. exact H. }
  assert (Hb : out_b
    = (Raise (OutOfOrderTransactionNesting
                (nesting_message b (after_debug first c)
                   (exit_action second b) (_savepoint_name a))),
       {| self := set_exited true b;
          conn := set_savepoints init
                    (after_debug second (after_debug first c)) |})).
  { subst out_b. rewrite Ha. cbn [snd conn].
    apply exit_mismatch. exact Hne. }
  rewrite Ha, Hb. cbn [fst snd self conn].
  autorewrite with more_frame.
  repeat split; try reflexivity. eexists. reflexivity.
Qed.

(** X5. The prepared-statement cache is cleared by a rollback that gets
    past the pop and the assertion, once, and its maintenance commands go
    out in the same batch after the rollback command; the commit path and
    an exit that fails before never touch the cache. *)
Theorem cache_cleared_by_rollback_only :
  forall (exc_val : option exn) (t : BaseTransaction) (c : Conn)
         (init : list string) (top : string),
    let s := {| self := t; conn := set_savepoints (init ++ [top])%list c |} in
    let after := conn (snd (_exit_gen exc_val s)) in
    let commits :=
      match exc_val with
      | None => negb (force_rollback t)
      | Some _ => false
      end in
    let completes :=
      String.eqb top (_savepoint_name t)
      && negb (_outer_transaction t && nonempty init) in
    (commits = true -> _prepared after = _prepared c)
    /\ (commits = false -> completes = true ->
        _prepared after = _prepared (after_clear c)
        /\ sent after
           = append (sent c)
               (join "; " (List.app (rollback_commands t) (maintenance c))))
    /\ (commits = false -> completes = false ->
        _prepared after = _prepared c /\ sent after = sent c).
Proof.
  intros exc_val t c init top s after commits completes.
  subst s after commits completes.
  split; [|split].
  - intros Hc. destruct exc_val as [e|]; [discriminate|].
    apply negb_true_iff in Hc. rewrite exit_commit_run by exact Hc.
    cbv zeta. destruct (String.eqb top (_savepoint_name t));
      [destruct (_outer_transaction t && nonempty init)|]; reflexivity.
  - intros Hc Hdone. apply andb_true_iff in Hdone. destruct Hdone as [Hn Ha].
    apply negb_true_iff in Ha.
    assert (Hp : match exc_val with
                 | None => force_rollback t
                 | Some _ => true
                 end = true).
    { destruct exc_val; [reflexivity|]. apply negb_false_iff. exact Hc. }
    rewrite exit_rollback_run by exact Hp. cbv zeta. rewrite Hn, Ha.
    unfold rollback_batch. rewrite fold_left_append.
    destruct (fst (round_trip _ _)); cbn [fst snd conn];
      autorewrite with more_frame; split; reflexivity.
  - intros Hc Hfail.
    assert (Hp : match exc_val with
                 | None => force_rollback t
                 | Some _ => true
                 end = true).
    { destruct exc_val; [reflexivity|]. apply negb_false_iff. exact Hc. }
    rewrite exit_rollback_run by exact Hp. cbv zeta.
    destruct (String.eqb top (_savepoint_name t)); cbn [andb] in Hfail.
    + apply negb_false_iff in Hfail. rewrite Hfail. cbn [fst snd conn].
      autorewrite with more_frame. split; reflexivity.
    + cbn [fst snd conn]. autorewrite with more_frame. split; reflexivity.
Qed.

(** What [_enter_gen] and [_exit_gen] can make of [self]. *)
Lemma enter_self (s : State) :
  self (snd (_enter_gen s)) = self s
  \/ self (snd (_enter_gen s))
     = set_outer_transaction true (set_entered true (self s))
  \/ (_entered (self s) = false
      /\ self (snd (_enter_gen s)) = entered_on (self s) (conn s)).
Proof.
  destruct s as [t c]. cbn [self conn].
  destruct (_entered t) eqn:He.
  - left. rewrite enter_entered by exact He. reflexivity.
  - rewrite enter_run by exact He.
    destruct (is_IDLE (transaction_status (pgconn c))
              && nonempty (_savepoints c)).
    + right. left. reflexivity.
    + right. right. split; reflexivity.
Qed.

Lemma exit_self (exc_val : option exn) (s : State) :
  self (snd (_exit_gen exc_val s)) = self s
  \/ self (snd (_exit_gen exc_val s)) = set_exited true (self s).
Proof.
  destruct (state_shape s) as [(c & E)|(c & init & top & E)]; rewrite E.
  - left. rewrite exit_empty_run.
    destruct (match exc_val with
              | None => negb (force_rollback (self s))
              | Some _ => false
              end); reflexivity.
  - right. exit_cases exc_val (self s); reflexivity.
Qed.

(** X6. The life of a scope only advances: neither entry nor exit takes a
    scope back from terminated to active or from active to inactive, and
    a scope that is terminated stays so.  Neither changes the identity or
    the [force_rollback] flag; exit changes neither the name nor the outer
    flag; entry keeps a name that was given. *)
Theorem scope_life_only_advances :
  forall (exc_val : option exn) (s : State),
    let entered := self (snd (_enter_gen s)) in
    let exited := self (snd (_exit_gen exc_val s)) in
    stage (self s) <= stage entered
    /\ stage (self s) <= stage exited
    /\ (status (self s) = "terminated" ->
        status entered = "terminated" /\ status exited = "terminated")
    /\ ident entered = ident (self s)
    /\ ident exited = ident (self s)
    /\ force_rollback entered = force_rollback (self s)
    /\ force_rollback exited = force_rollback (self s)
    /\ _savepoint_name exited = _savepoint_name (self s)
    /\ _outer_transaction exited = _outer_transaction (self s)
    /\ (truthy (_savepoint_name (self s)) = true ->
        _savepoint_name entered = _savepoint_name (self s)).
Proof.
  intros exc_val s entered exited. subst entered exited.
  destruct (enter_self s) as [-> | [-> | [He ->]]];
    destruct (exit_self exc_val s) as [-> | ->];
    unfold stage, status, entered_on, entry_name;
    cbn [set_exited set_entered set_outer_transaction _entered _exited
         ident force_rollback _savepoint_name _outer_transaction];
    try rewrite He;
    destruct (_entered (self s)), (_exited (self s));
    cbn [negb];
    repeat split; try lia; try reflexivity; try discriminate;
    try (intros Hn; rewrite Hn;
         destruct (is_IDLE (transaction_status (pgconn (conn s))));
         reflexivity).
Qed.


End Edges.

(* ------------------------------------------------------------------ *)
(** * How scopes compose *)

Section Composition.

Context {PGconn PrepareManager : Type}.
Context {CO : Collaborators PGconn PrepareManager}.

Abbreviation Conn := (@Connection PGconn PrepareManager).
Abbreviation State := (@St PGconn PrepareManager).

(** Entry on a well-behaved wire. *)
Lemma entry_succeeds (t : BaseTransaction) (c : Conn) :
  well_behaved_wire ->
  _entered t = false ->
  stack_consistent c ->
  _enter_gen {| self := t; conn := c |}
  = (Return tt, {| self := entered_on t c; conn := block_start t c |})
  /\ is_IDLE (transaction_status (pgconn (block_start t c))) = false.
Proof.
  intros Hwire He Hc. rewrite enter_run by exact He.
  assert (Hassert : is_IDLE (transaction_status (pgconn c))
                    && nonempty (_savepoints c) = false).
  { destruct (is_IDLE (transaction_status (pgconn c))) eqn:Hi;
      [|reflexivity].
    rewrite (Hc Hi). reflexivity. }
  rewrite Hassert. cbv zeta. unfold block_start, round_trip_result.
  set (t' := entered_on t c).
  assert (Houter : _outer_transaction t'
                   = is_IDLE (transaction_status (pgconn c)))
    by reflexivity.
  rewrite pgconn_after_round_trip, pgconn_set_savepoints.
  destruct (is_IDLE (transaction_status (pgconn c))) eqn:Hi.
  - rewrite (enter_batch_outer t' Houter).
    destruct (truthy (_savepoint_name t')).
    + destruct (begin_savepoint_opens Hwire (_savepoint_name t') _ Hi)
        as (-> & ->).
      split; reflexivity.
    + destruct (begin_opens Hwire _ Hi) as (-> & ->).
      split; reflexivity.
  - assert (Hn : truthy (_savepoint_name t') = true).
    { apply entry_name_truthy. exact Hi. }
    rewrite (enter_batch_inner _ Houter Hn).
    destruct (savepoint_keeps Hwire (_savepoint_name t') _ Hi)
      as (-> & ->).
    split; reflexivity.
Qed.

(** The outcome of a [with] statement on a wire that answers every round
    trip. *)
Lemma with_statement_result (t : BaseTransaction) (block : M Conn unit)
    (c : Conn) :
  wire_never_fails ->
  well_behaved_wire ->
  _entered t = false ->
  stack_consistent c ->
  (forall c1, stack_consistent c1 -> balanced c1 (block c1)) ->
  fst (with_statement t block c)
  = with_outcome t (fst (block (block_start t c))).
Proof.
  intros Hnever Hwire He Hc Hblock.
  destruct (@entry_succeeds t c Hwire He Hc) as (Henter & Hin).
  unfold with_statement. rewrite Henter. cbn [self conn].
  assert (Hc1 : stack_consistent (block_start t c)).
  { intros Hidle. rewrite Hin in Hidle. discriminate. }
  destruct (Hblock _ Hc1) as (Hs2 & _).
  destruct (block (block_start t c)) as [r c2] eqn:Hrun.
  cbn [fst snd] in Hs2 |- *.
  assert (Hstack : _savepoints c2
                   = (_savepoints c ++ [_savepoint_name (entered_on t c)])%list)
    by (rewrite Hs2; reflexivity).
  rewrite <- (same_connection c2), Hstack.
  assert (Hassert : _outer_transaction (entered_on t c)
                    && nonempty (_savepoints c) = false).
  { cbn [entered_on _outer_transaction].
    destruct (is_IDLE (transaction_status (pgconn c))) eqn:Hi;
      [|reflexivity].
    rewrite (Hc Hi). reflexivity. }
  destruct r as [[]|e].
  - destruct (force_rollback t) eqn:Hf.
    + rewrite exit_rollback_run by exact Hf. cbv zeta.
      rewrite String.eqb_refl, Hassert, Hnever. reflexivity.
    + rewrite exit_commit_run by exact Hf. cbv zeta.
      rewrite String.eqb_refl, Hassert, Hnever. reflexivity.
  - rewrite exit_rollback_run by reflexivity. cbv zeta.
    rewrite String.eqb_refl, Hassert, Hnever.
    assert (Haim : aimed_at (Some e) (entered_on t c) = aimed_at (Some e) t)
      by reflexivity.
    rewrite Haim. cbn [with_outcome].
    destruct (aimed_at (Some e) t); reflexivity.
Qed.

(** A block made of nested scopes and a final signal is balanced. *)
Lemma body_then_signal_balanced (body : list Block)
    (signal : option Signal) (c : Conn) :
  well_behaved_wire ->
  stack_consistent c ->
  balanced c
    ((run_body body ;;
      match signal with
      | None => ret tt
      | Some v => raise (exn_of_signal v)
      end) c).
Proof.
  intros Hwire Hc. unfold bind.
  assert (H1 : balanced c (run_body body c)).
  { apply run_body_balanced; [|exact Hc].
    apply Forall_forall. intros b _ c' Hc'.
    apply run_balanced; assumption. }
  destruct (run_body body c) as [[u|e] c2] eqn:Hrun; [|exact H1].
  destruct H1 as (Hs & Hcons & _ & Hlog).
  destruct signal as [v|].
  - split; [exact Hs|split; [exact Hcons|split; [|exact Hlog]]].
    apply signal_external.
  - split; [exact Hs|split; [exact Hcons|split; [exact I|exact Hlog]]].
Qed.

(** X8. On a well-behaved wire that answers every round trip, a [with]
    statement returns when its block returns, also with [force_rollback];
    it swallows the explicit rollback signal whose target is unset or is
    its own scope; every other exception of the block leaves the statement
    as it is. *)
Theorem with_statement_outcome :
  wire_never_fails ->
  well_behaved_wire ->
  forall (t : BaseTransaction) (block : M Conn unit) (c : Conn),
    _entered t = false ->
    stack_consistent c ->
    (forall c1, stack_consistent c1 -> balanced c1 (block c1)) ->
    fst (with_statement t block c)
    = match fst (block (block_start t c)) with
      | Return _ => Return tt
      | Raise (Rollback None) => Return tt
      | Raise (Rollback (Some tx)) =>
          if Nat.eqb tx (ident t) then Return tt
          else Raise (Rollback (Some tx))
      | Raise e => Raise e
      end.
Proof.
  intros Hnever Hwire t block c He Hc Hblock.
  rewrite (@with_statement_result t block c Hnever Hwire He Hc Hblock).
  destruct (fst (block (block_start t c))) as [u|[| | | |[tx|]| |]];
    try reflexivity.
Qed.


(** X10. A name given by the caller can be the one synthesized for the
    next depth: an anonymous scope entered right inside a scope named
    [_pg3_] followed by its own depth plus one gets the name of that
    scope; the stack then holds the name twice, and the enclosing scope
    can exit first without the out-of-order error. *)
Theorem synthesized_name_can_collide :
  savepoint_keeps_transaction ->
  forall (parent child : BaseTransaction) (c : Conn),
    _entered parent = false ->
    _savepoint_name parent = "_pg3_" ++ str (length (_savepoints c) + 2) ->
    anonymous child ->
    is_IDLE (transaction_status (pgconn c)) = false ->
    exists parent' child' c',
      enter_nested [parent; child] c = Some ([parent'; child'], c')
      /\ _savepoint_name parent' = _savepoint_name parent
      /\ _savepoint_name child' = _savepoint_name parent
      /\ _savepoints c'
         = (_savepoints c
            ++ [_savepoint_name parent; _savepoint_name parent])%list
      /\ forall (exc_val : option exn) (msg : string),
           fst (_exit_gen exc_val {| self := parent'; conn := c' |})
           <> Raise (OutOfOrderTransactionNesting msg).
Proof.
  intros Hwire parent child c He Hname Hchild Hi.
  assert (Htruthy : truthy (_savepoint_name parent) = true)
    by (rewrite Hname; reflexivity).
  assert (Hentry : entry_name parent c = _savepoint_name parent).
  { unfold entry_name. rewrite Hi, Htruthy. reflexivity. }
  cbn [enter_nested]. rewrite enter_run by exact He.
  rewrite Hi. cbn [andb]. cbv zeta.
  set (p' := entered_on parent c).
  assert (Hp'name : _savepoint_name p' = _savepoint_name parent)
    by exact Hentry.
  assert (Hbatch : enter_batch p'
                   = "SAVEPOINT " ++ escape_identifier (_savepoint_name p')).
  { apply enter_batch_inner.
    - unfold p'. cbn [entered_on _outer_transaction]. exact Hi.
    - rewrite Hp'name. exact Htruthy. }
  rewrite Hbatch.
  destruct (Hwire (_savepoint_name p') (pgconn c) Hi) as (Hok & Hstay).
  unfold round_trip_result. rewrite Hok. cbn [self conn].
  set (c1 := after_round_trip _ _).
  assert (Hs1 : _savepoints c1
                = (_savepoints c ++ [_savepoint_name parent])%list).
  { unfold c1. rewrite savepoints_after_round_trip, savepoints_set, Hentry.
    reflexivity. }
  assert (Hi1 : is_IDLE (transaction_status (pgconn c1)) = false).
  { unfold c1. rewrite pgconn_after_round_trip, pgconn_set_savepoints.
    exact Hstay. }
  destruct (enter_anonymous c1 Hchild Hi1) as (Hcname & Hcstack & _).
  destruct Hchild as [Hcn Hce].
  revert Hcname Hcstack. rewrite enter_run by exact Hce.
  rewrite Hi1. cbn [andb]. cbv zeta.
  set (ch' := entered_on child c1).
  assert (Hcbatch : enter_batch ch'
                    = "SAVEPOINT "
                      ++ escape_identifier (_savepoint_name ch')).
  { apply enter_batch_inner.
    - unfold ch'. cbn [entered_on _outer_transaction]. exact Hi1.
    - unfold ch'. cbn [entered_on _savepoint_name].
      apply entry_name_truthy. exact Hi1. }
  rewrite Hcbatch.
  destruct (Hwire (_savepoint_name ch') (pgconn c1) Hi1) as (Hok1 & _).
  unfold round_trip_result. rewrite Hok1. cbn [fst snd self conn].
  intros Hcname Hcstack.
  assert (Hsame : _savepoint_name ch' = _savepoint_name parent).
  { rewrite Hcname, Hs1, length_app. cbn [length]. rewrite Hname.
    unfold synthesized. do 2 f_equal. lia. }
  eexists p', ch', _. split; [reflexivity|].
  split; [exact Hp'name|]. split; [exact Hsame|].
  assert (Hfinal : forall c2 : Conn,
            _savepoints c2
            = (_savepoints c1 ++ [synthesized (length (_savepoints c1))])%list
            -> _savepoints c2
               = (_savepoints c
                  ++ [_savepoint_name parent; _savepoint_name parent])%list).
  { intros c2 H2. rewrite H2, <- Hcname, Hsame, Hs1, <- app_assoc.
    reflexivity. }
  split; [apply Hfinal; exact Hcstack|].
  intros exc_val msg.
  match goal with
  | |- context [{| self := p'; conn := ?c2 |}] =>
      rewrite <- (same_connection c2), (Hfinal c2 Hcstack)
  end.
  replace (_savepoints c
           ++ [_savepoint_name parent; _savepoint_name parent])%list
    with ((_savepoints c ++ [_savepoint_name parent])
          ++ [_savepoint_name p'])%list
    by (rewrite Hp'name, <- app_assoc; reflexivity).
  apply exit_match_no_nesting_error.
Qed.

End Composition.

(* ------------------------------------------------------------------ *)
(** * Properties of the older [psycopg3/transaction.py] *)

Section OlderProperties.

Context {PGconn PrepareManager : Type}.
Context {CO : Collaborators PGconn PrepareManager}.

Abbreviation Conn := (@Connection PGconn PrepareManager).
Abbreviation Older := (Psycopg3.BaseTransaction * Conn)%type.

Lemma older_commit_commands_run (t : Psycopg3.BaseTransaction) (c : Conn)
    (init : list string) (top : string) :
  Psycopg3._commit_commands (t, set_savepoints (init ++ [top])%list c) =
  if String.eqb top (Psycopg3._savepoint_name t) then
    if Psycopg3._outer_transaction t && nonempty init then
      (Raise AssertionError, (t, set_savepoints init c))
    else (Return (older_commit_list t), (t, set_savepoints init c))
  else (Raise AssertionError, (t, set_savepoints (init ++ [top])%list c)).
Proof.
  unfold Psycopg3._commit_commands, older_commit_list.
  cbn [set_savepoints _savepoints]. rewrite list_pop_app.
  destruct (String.eqb top (Psycopg3._savepoint_name t)); cbn [negb];
    [|reflexivity].
  destruct (Psycopg3._outer_transaction t); cbn [andb negb].
  - rewrite andb_false_r. destruct init; reflexivity.
  - rewrite andb_true_r.
    destruct (truthy (Psycopg3._savepoint_name t)); reflexivity.
Qed.

Lemma older_rollback_commands_run (t : Psycopg3.BaseTransaction) (c : Conn)
    (init : list string) (top : string) :
  Psycopg3._rollback_commands (t, set_savepoints (init ++ [top])%list c) =
  if String.eqb top (Psycopg3._savepoint_name t) then
    if Psycopg3._outer_transaction t && nonempty init then
      (Raise AssertionError, (t, set_savepoints init c))
    else (Return (older_rollback_list t), (t, set_savepoints init c))
  else (Raise AssertionError, (t, set_savepoints (init ++ [top])%list c)).
Proof.
  unfold Psycopg3._rollback_commands, older_rollback_list.
  cbn [set_savepoints _savepoints]. rewrite list_pop_app.
  destruct (String.eqb top (Psycopg3._savepoint_name t)); cbn [negb];
    [|reflexivity].
  destruct (Psycopg3._outer_transaction t); cbn [andb negb].
  - rewrite andb_false_r. destruct init; reflexivity.
  - rewrite andb_true_r.
    destruct (truthy (Psycopg3._savepoint_name t)); reflexivity.
Qed.

(** The older [__exit__], once the top of the stack is known. *)
Lemma older_exit_run (id : nat) (exc_val : option exn)
    (t : Psycopg3.BaseTransaction) (c : Conn) (init : list string)
    (top : string) :
  Psycopg3.__exit__ id exc_val (t, set_savepoints (init ++ [top])%list c) =
  let c0 := after_debug exc_val c in
  let commits :=
    match exc_val with None => true | Some _ => false end
    && negb (Psycopg3.force_rollback t) in
  if String.eqb top (Psycopg3._savepoint_name t) then
    if Psycopg3._outer_transaction t && nonempty init then
      (Raise AssertionError, (t, set_savepoints init c0))
    else
      (match fst (round_trip (older_exit_batch exc_val t) (pgconn c)) with
       | Some msg => Raise (OperationalError msg)
       | None => Return (if commits then false else aimed_at_id id exc_val)
       end,
       (t, after_round_trip (older_exit_batch exc_val t)
             (set_savepoints init c0)))
  else (Raise AssertionError, (t, set_savepoints (init ++ [top])%list c0)).
Proof.
  assert (Hlog :
    (match exc_val with
     | Some (Rollback _) => Psycopg3.log_debug "Explicit rollback from: "
     | _ => ret tt
     end) (t, set_savepoints (init ++ [top])%list c)
    = (Return tt,
       (t, set_savepoints (init ++ [top])%list (after_debug exc_val c)))).
  { destruct exc_val as [[]|]; reflexivity. }
  assert (Hroll :
    Psycopg3._rollback id exc_val
      (t, set_savepoints (init ++ [top])%list c)
    = if String.eqb top (Psycopg3._savepoint_name t) then
        if Psycopg3._outer_transaction t && nonempty init then
          (Raise AssertionError,
           (t, set_savepoints init (after_debug exc_val c)))
        else
          (match fst (round_trip (join "; " (older_rollback_list t))
                        (pgconn c)) with
           | Some msg => Raise (OperationalError msg)
           | None => Return (aimed_at_id id exc_val)
           end,
           (t, after_round_trip (join "; " (older_rollback_list t))
                 (set_savepoints init (after_debug exc_val c))))
      else
        (Raise AssertionError,
         (t, set_savepoints (init ++ [top])%list (after_debug exc_val c)))).
  { unfold Psycopg3._rollback. unfold bind at 1. rewrite Hlog.
    unfold bind at 1. rewrite older_rollback_commands_run.
    destruct (String.eqb top (Psycopg3._savepoint_name t)); [|reflexivity].
    destruct (Psycopg3._outer_transaction t && nonempty init);
      [reflexivity|].
    unfold bind, Psycopg3._execute, after_round_trip, ret.
    cbn [fst snd pgconn set_savepoints _savepoints _prepared sent logged].
    rewrite pgconn_after_debug.
    destruct (fst (round_trip _ (pgconn c))); [reflexivity|].
    destruct exc_val as [[| | | |[tx|]| |]|]; try reflexivity.
    cbn [aimed_at_id]. destruct (Nat.eqb tx id); reflexivity. }
  unfold Psycopg3.__exit__, older_exit_batch. cbn [fst]. cbv zeta.
  destruct exc_val as [e|]; cbn [andb].
  - rewrite Hroll. reflexivity.
  - destruct (Psycopg3.force_rollback t); cbn [negb].
    + rewrite Hroll. reflexivity.
    + clear Hroll Hlog. cbn [after_debug].
      unfold Psycopg3._commit, bind at 1.
      unfold bind at 1. rewrite older_commit_commands_run.
      destruct (String.eqb top (Psycopg3._savepoint_name t));
        [|reflexivity].
      destruct (Psycopg3._outer_transaction t && nonempty init);
        [reflexivity|].
      unfold Psycopg3._execute, after_round_trip, ret.
      cbn [fst snd pgconn set_savepoints _savepoints _prepared sent logged].
      destruct (fst (round_trip _ (pgconn c))); reflexivity.
Qed.

Lemma older_exit_empty (id : nat) (exc_val : option exn)
    (t : Psycopg3.BaseTransaction) (c : Conn) :
  Psycopg3.__exit__ id exc_val (t, set_savepoints [] c)
  = (Raise (IndexError "list index out of range"),
     (t, set_savepoints [] (after_debug exc_val c))).
Proof.
  unfold Psycopg3.__exit__. cbn [fst].
  destruct exc_val as [[]|]; try reflexivity.
  destruct (Psycopg3.force_rollback t); reflexivity.
Qed.

(** What the older [_enter_commands] does to a scope not yet entered. *)
Lemma older_enter_commands_run (t : Psycopg3.BaseTransaction) (c : Conn) :
  Psycopg3._yolo t = true ->
  Psycopg3._outer_transaction t && nonempty (_savepoints c) = false ->
  exists commands,
    Psycopg3._enter_commands (t, c)
    = (Return commands,
       ({| Psycopg3.force_rollback := Psycopg3.force_rollback t;
           Psycopg3._yolo := false;
           Psycopg3._outer_transaction := Psycopg3._outer_transaction t;
           Psycopg3._savepoint_name := Psycopg3._savepoint_name t |},
        set_savepoints
          (_savepoints c ++ [Psycopg3._savepoint_name t])%list c))
    /\ join "; " commands
       = if Psycopg3._outer_transaction t then
           if truthy (Psycopg3._savepoint_name t) then
             "begin; savepoint "
               ++ escape_identifier (Psycopg3._savepoint_name t)
           else "begin"
         else if truthy (Psycopg3._savepoint_name t) then
           "savepoint " ++ escape_identifier (Psycopg3._savepoint_name t)
         else EmptyString.
Proof.
  intros Hy Hok. unfold Psycopg3._enter_commands. rewrite Hy.
  cbn [negb Psycopg3._outer_transaction Psycopg3._savepoint_name].
  rewrite Hok.
  destruct (Psycopg3._outer_transaction t),
           (truthy (Psycopg3._savepoint_name t));
    eexists; split; reflexivity.
Qed.

(** X11. The older exit compares the top of the stack with the name of
    its scope before it pops: out of order it raises [AssertionError] and
    leaves the stack and the wire as they are; on an empty stack it raises
    [IndexError]. *)
Theorem older_exit_checks_before_pop :
  forall (id : nat) (exc_val : option exn) (t : Psycopg3.BaseTransaction)
         (c : Conn) (init : list string) (top : string),
    let out :=
      Psycopg3.__exit__ id exc_val
        (t, set_savepoints (init ++ [top])%list c) in
    let empty := Psycopg3.__exit__ id exc_val (t, set_savepoints [] c) in
    (top <> Psycopg3._savepoint_name t ->
     fst out = Raise AssertionError
     /\ _savepoints (snd (snd out)) = (init ++ [top])%list
     /\ sent (snd (snd out)) = sent c
     /\ pgconn (snd (snd out)) = pgconn c)
    /\ fst empty = Raise (IndexError "list index out of range")
    /\ _savepoints (snd (snd empty)) = []
    /\ sent (snd (snd empty)) = sent c.
Proof.
  intros id exc_val t c init top out empty. subst out empty.
  split.
  - intros Hne. apply eqb_false_iff in Hne.
    rewrite older_exit_run. cbv zeta. rewrite Hne. cbn [fst snd].
    rewrite savepoints_set, sent_set_savepoints, pgconn_set_savepoints,
      sent_after_debug, pgconn_after_debug.
    repeat split; reflexivity.
  - rewrite older_exit_empty. cbn [fst snd].
    rewrite savepoints_set, sent_set_savepoints, sent_after_debug.
    repeat split; reflexivity.
Qed.

(** X12. The older exit of a scope on top of the stack pops it and makes
    one round trip.  It has no handler around the rollback: an error of
    the wire leaves [__exit__] on the rollback path as on the commit path,
    in place of the exception in flight.  When the round trip succeeds,
    the commit path answers false, and the rollback path answers true
    exactly for the explicit rollback signal whose target is unset or is
    this scope. *)
Theorem older_exit_outcome :
  forall (id : nat) (exc_val : option exn) (t : Psycopg3.BaseTransaction)
         (c : Conn) (init : list string),
    let out :=
      Psycopg3.__exit__ id exc_val
        (t, set_savepoints (init ++ [Psycopg3._savepoint_name t])%list c) in
    let commits :=
      match exc_val with None => true | Some _ => false end
      && negb (Psycopg3.force_rollback t) in
    Psycopg3._outer_transaction t && nonempty init = false ->
    _savepoints (snd (snd out)) = init
    /\ sent (snd (snd out)) = append (sent c) (older_exit_batch exc_val t)
    /\ (forall msg,
          fst (round_trip (older_exit_batch exc_val t) (pgconn c)) = Some msg ->
          fst out = Raise (OperationalError msg))
    /\ (fst (round_trip (older_exit_batch exc_val t) (pgconn c)) = None ->
        fst out
        = Return (if commits then false
                  else match exc_val with
                       | Some (Rollback None) => true
                       | Some (Rollback (Some tx)) => Nat.eqb tx id
                       | _ => false
                       end)).
Proof.
  intros id exc_val t c init out commits Hok. subst out commits.
  rewrite older_exit_run. cbv zeta. rewrite String.eqb_refl, Hok.
  cbn [fst snd].
  rewrite savepoints_after_round_trip, savepoints_set,
    sent_after_round_trip, sent_set_savepoints, sent_after_debug.
  split; [reflexivity|]. split; [reflexivity|]. split.
  - intros msg ->. reflexivity.
  - intros ->. reflexivity.
Qed.


(** X14. The older entry is one-shot by an assertion: the first call pushes
    the name the constructor fixed and clears the flag, a second call
    raises [AssertionError] and changes nothing. *)
Theorem older_entry_is_one_shot :
  forall (t : Psycopg3.BaseTransaction) (c : Conn),
    Psycopg3._yolo t = true ->
    Psycopg3._outer_transaction t && nonempty (_savepoints c) = false ->
    let s1 := snd (Psycopg3.__enter__ (t, c)) in
    _savepoints (snd s1)
    = (_savepoints c ++ [Psycopg3._savepoint_name t])%list
    /\ Psycopg3._yolo (fst s1) = false
    /\ Psycopg3._savepoint_name (fst s1) = Psycopg3._savepoint_name t
    /\ Psycopg3.__enter__ s1 = (Raise AssertionError, s1).
Proof.
  intros t c Hy Hok s1.
  destruct (older_enter_commands_run t c Hy Hok) as (cmds & Hrun & _).
  assert (Hs1 : s1
    = ({| Psycopg3.force_rollback := Psycopg3.force_rollback t;
          Psycopg3._yolo := false;
          Psycopg3._outer_transaction := Psycopg3._outer_transaction t;
          Psycopg3._savepoint_name := Psycopg3._savepoint_name t |},
       after_round_trip (join "; " cmds)
         (set_savepoints
            (_savepoints c ++ [Psycopg3._savepoint_name t])%list c))).
  { subst s1. unfold Psycopg3.__enter__, bind. rewrite Hrun. reflexivity. }
  rewrite Hs1. cbn [fst snd Psycopg3._yolo Psycopg3._savepoint_name].
  repeat split; reflexivity.
Qed.

(** What a successful older constructor fixes. *)
Lemma older_init_run (name : option string) (force : bool) (c : Conn)
    (t : Psycopg3.BaseTransaction) :
  fst (Psycopg3.__init__ name force c) = Return t ->
  Psycopg3._yolo t = true
  /\ Psycopg3.force_rollback t = force
  /\ Psycopg3._outer_transaction t
     = is_IDLE (transaction_status (pgconn c))
  /\ Psycopg3._outer_transaction t && nonempty (_savepoints c) = false
  /\ (Psycopg3._outer_transaction t = false ->
      truthy (Psycopg3._savepoint_name t) = true).
Proof.
  unfold Psycopg3.__init__.
  destruct (is_IDLE (transaction_status (pgconn c))).
  - unfold bind, assert. destruct (_savepoints c) as [|x l]; cbn.
    + intros H. inversion H. repeat split. discriminate.
    + discriminate.
  - cbn. intros H. inversion H. cbn. repeat split.
    intros _. destruct name as [[|a n]|]; reflexivity.
Qed.

(** X15. The older constructor names a scope after the depth it finds:
    two scopes constructed without a name on the same connection inside a
    transaction, before either is entered, get the same name, and entering
    both pushes that name twice. *)
Theorem older_names_collide :
  forall (force1 force2 : bool) (c : Conn),
    is_IDLE (transaction_status (pgconn c)) = false ->
    exists a b,
      Psycopg3.__init__ None force1 c = (Return a, c)
      /\ Psycopg3.__init__ None force2 c = (Return b, c)
      /\ Psycopg3._savepoint_name a
         = "s" ++ str (length (_savepoints c) + 1)
      /\ Psycopg3._savepoint_name b = Psycopg3._savepoint_name a
      /\ _savepoints
           (snd (snd (Psycopg3._enter_commands
                        (b, snd (snd (Psycopg3._enter_commands (a, c)))))))
         = (_savepoints c
            ++ [Psycopg3._savepoint_name a; Psycopg3._savepoint_name a])%list.
Proof.
  intros force1 force2 c Hi.
  unfold Psycopg3.__init__. rewrite Hi.
  eexists. eexists.
  split; [reflexivity|]. split; [reflexivity|].
  split; [reflexivity|]. split; [reflexivity|].
  unfold Psycopg3._enter_commands.
  cbn [Psycopg3._yolo Psycopg3._outer_transaction Psycopg3._savepoint_name
       negb andb fst snd set_savepoints _savepoints truthy].
  unfold append. rewrite <- app_assoc. reflexivity.
Qed.

(** X16. A scope of the older module that is constructed, entered and then
    exited on one connection leaves the stack as the constructor found it,
    whatever the wire answers; the exit fails neither of its assertions
    and sends its batch right after the batch of the entry. *)
Theorem older_enter_exit_round_trip :
  forall (name : option string) (force : bool) (c : Conn)
         (t : Psycopg3.BaseTransaction) (id : nat) (exc_val : option exn),
    fst (Psycopg3.__init__ name force c) = Return t ->
    let s1 := snd (Psycopg3.__enter__ (t, c)) in
    let out := Psycopg3.__exit__ id exc_val s1 in
    _savepoints (snd s1)
    = (_savepoints c ++ [Psycopg3._savepoint_name t])%list
    /\ _savepoints (snd (snd out)) = _savepoints c
    /\ fst out <> Raise AssertionError
    /\ (forall msg, fst out <> Raise (IndexError msg))
    /\ exists entry,
         sent (snd (snd out))
         = (sent c ++ [entry; older_exit_batch exc_val t])%list.
Proof.
  intros name force c t id exc_val Hinit s1 out.
  destruct (older_init_run _ _ _ Hinit) as (Hy & _ & _ & Hok & _).
  destruct (older_enter_commands_run t c Hy Hok) as (cmds & Hrun & _).
  set (t' := {| Psycopg3.force_rollback := Psycopg3.force_rollback t;
                Psycopg3._yolo := false;
                Psycopg3._outer_transaction := Psycopg3._outer_transaction t;
                Psycopg3._savepoint_name := Psycopg3._savepoint_name t |}).
  assert (Hs1 : s1
    = (t', set_savepoints
             (_savepoints c ++ [Psycopg3._savepoint_name t'])%list
             (after_round_trip (join "; " cmds) c))).
  { subst s1. unfold Psycopg3.__enter__, bind. rewrite Hrun. reflexivity. }
  subst out. rewrite Hs1. cbn [snd].
  split; [reflexivity|].
  rewrite older_exit_run. cbv zeta. rewrite String.eqb_refl.
  assert (Hok' : Psycopg3._outer_transaction t'
                 && nonempty (_savepoints c) = false) by exact Hok.
  rewrite Hok'. cbn [fst snd].
  rewrite savepoints_after_round_trip, savepoints_set,
    sent_after_round_trip, sent_set_savepoints, sent_after_debug,
    sent_after_round_trip.
  split; [reflexivity|]. split; [|split].
  - destruct (fst (round_trip _ _)); discriminate.
  - intros msg. destruct (fst (round_trip _ _)); discriminate.
  - exists (join "; " cmds). unfold append. rewrite <- app_assoc.
    reflexivity.
Qed.

End OlderProperties.

(* ------------------------------------------------------------------ *)
(** * Properties of [psycopg3/types/oids.py] *)

Lemma dict_getitem_setitem_same {V : Type} (k : string) (v : V)
    (d : list (string * V)) :
  Oids.dict_getitem k (Oids.dict_setitem k v d) = Some v.
Proof.
  induction d as [|[k' v'] d IH]; cbn.
  - rewrite String.eqb_refl. reflexivity.
  - destruct (String.eqb k k') eqn:E; cbn.
    + rewrite String.eqb_refl. reflexivity.
    + rewrite E. exact IH.
Qed.

Lemma dict_getitem_setitem_other {V : Type} (k k' : string) (v : V)
    (d : list (string * V)) :
  k <> k' ->
  Oids.dict_getitem k (Oids.dict_setitem k' v d) = Oids.dict_getitem k d.
Proof.
  intros Hne. apply eqb_false_iff in Hne.
  induction d as [|[k0 v0] d IH]; cbn.
  - rewrite Hne. reflexivity.
  - destruct (String.eqb k' k0) eqn:E; cbn.
    + apply String.eqb_eq in E. subst k0. rewrite Hne. reflexivity.
    + destruct (String.eqb k k0); [reflexivity|exact IH].
Qed.

Lemma dict_setitem_keys {V : Type} (k : string) (v : V)
    (d : list (string * V)) :
  ~ In k (map fst d) ->
  map fst (Oids.dict_setitem k v d) = (map fst d ++ [k])%list.
Proof.
  induction d as [|[k' v'] d IH]; cbn; intros Hnot.
  - reflexivity.
  - destruct (String.eqb k k') eqn:E.
    + apply String.eqb_eq in E. subst k'. exfalso. apply Hnot. left.
      reflexivity.
    + cbn. f_equal. apply IH. intros H. apply Hnot. right. exact H.
Qed.

Lemma name_to_oid_snoc (table : list (string * N * N * string))
    (row : string * N * N * string) :
  Oids.name_to_oid (table ++ [row])
  = Oids.dict_setitem (row_name row) (row_oid row) (Oids.name_to_oid table).
Proof.
  unfold Oids.name_to_oid. rewrite fold_left_app. cbn.
  destruct row as [[[name oid] array] regtype]. reflexivity.
Qed.

(** The comprehension over a table whose names are pairwise distinct. *)
Lemma name_to_oid_distinct (table : list (string * N * N * string)) :
  NoDup (map row_name table) ->
  map fst (Oids.name_to_oid table) = map row_name table
  /\ forall row, In row table ->
       Oids.dict_getitem (row_name row) (Oids.name_to_oid table)
       = Some (row_oid row).
Proof.
  induction table as [|row table IH] using rev_ind; intros Hnd.
  - split; [reflexivity|]. intros row [].
  - rewrite map_app in Hnd. cbn [map] in Hnd.
    pose proof (NoDup_remove_1 _ _ _ Hnd) as Hnd'.
    pose proof (NoDup_remove_2 _ _ _ Hnd) as Hnot.
    rewrite app_nil_r in Hnd', Hnot.
    destruct (IH Hnd') as (Hkeys & Hget).
    rewrite name_to_oid_snoc. split.
    + rewrite dict_setitem_keys by (rewrite Hkeys; exact Hnot).
      rewrite Hkeys, map_app. reflexivity.
    + intros r Hin. apply in_app_or in Hin. destruct Hin as [Hin|[<-|[]]].
      * rewrite dict_getitem_setitem_other; [apply Hget; exact Hin|].
        intros E. apply Hnot. rewrite <- E. apply in_map. exact Hin.
      * apply dict_getitem_setitem_same.
Qed.

Lemma dict_getitem_missing {V : Type} (k : string) (d : list (string * V)) :
  Oids.dict_getitem k d = None <-> ~ In k (map fst d).
Proof.
  induction d as [|[k' v'] d IH]; cbn.
  - split; [intros _ []|reflexivity].
  - destruct (String.eqb_spec k k') as [E|N0].
    + split; [discriminate|]. intros H. exfalso. apply H. left.
      symmetry. exact E.
    + rewrite IH. split.
      * intros H [E|Hin]; [apply N0; symmetry; exact E|apply H; exact Hin].
      * intros H Hin. apply H. right. exact Hin.
Qed.

Lemma distinct_names_NoDup (l : list string) :
  distinct_names l = true -> NoDup l.
Proof.
  induction l as [|x l IH]; cbn; intros H.
  - constructor.
  - apply andb_true_iff in H. destruct H as [Hx Hl].
    constructor; [|apply IH; exact Hl].
    intros Hin. apply negb_true_iff in Hx.
    assert (Hex : existsb (String.eqb x) l = true).
    { apply existsb_exists. exists x. split; [exact Hin|].
      apply String.eqb_refl. }
    rewrite Hex in Hx. discriminate.
Qed.

Lemma distinct_oids_NoDup (l : list N) : distinct_oids l = true -> NoDup l.
Proof.
  induction l as [|x l IH]; cbn; intros H.
  - constructor.
  - apply andb_true_iff in H. destruct H as [Hx Hl].
    constructor; [|apply IH; exact Hl].
    intros Hin. apply negb_true_iff in Hx.
    assert (Hex : existsb (N.eqb x) l = true).
    { apply existsb_exists. exists x. split; [exact Hin|].
      apply N.eqb_refl. }
    rewrite Hex in Hx. discriminate.
Qed.

Lemma oid_table_names_distinct : NoDup (map row_name Oids._oids_table).
Proof. apply distinct_names_NoDup. vm_compute. reflexivity. Qed.

Lemma oid_table_oids_distinct : NoDup (map row_oid Oids._oids_table).
Proof. apply distinct_oids_NoDup. vm_compute. reflexivity. Qed.

(** X17. The names of the table are pairwise distinct, so that the
    comprehension loses no row: [type_oid] has the names of the table as
    its keys, in the order of the table, maps the name of every row to the
    oid of that row, and has no other key. *)
Theorem type_oid_finds_every_row :
  map fst Oids.type_oid = map row_name Oids._oids_table
  /\ (forall row, In row Oids._oids_table ->
        Oids.dict_getitem (row_name row) Oids.type_oid = Some (row_oid row))
  /\ (forall name,
        Oids.dict_getitem name Oids.type_oid = None
        <-> ~ In name (map row_name Oids._oids_table))
  /\ length Oids.type_oid = length Oids._oids_table.
Proof.
  destruct (@name_to_oid_distinct Oids._oids_table oid_table_names_distinct)
    as (Hkeys & Hget).
  split; [exact Hkeys|]. split; [exact Hget|]. split.
  - intros name. unfold Oids.type_oid. rewrite dict_getitem_missing, Hkeys.
    reflexivity.
  - unfold Oids.type_oid.
    rewrite <- (length_map fst), Hkeys, length_map. reflexivity.
Qed.

Lemma dict_getitem_In {V : Type} (k : string) (v : V)
    (d : list (string * V)) :
  Oids.dict_getitem k d = Some v -> In (k, v) d.
Proof.
  induction d as [|[k' v'] d IH]; cbn; [discriminate|].
  destruct (String.eqb_spec k k') as [E|N0].
  - intros H. inversion H. subst. left. reflexivity.
  - intros H. right. apply IH. exact H.
Qed.

Lemma values_distinct_keys_equal {K V : Type} (a b : K) (v : V)
    (d : list (K * V)) :
  NoDup (map snd d) -> In (a, v) d -> In (b, v) d -> a = b.
Proof.
  induction d as [|[k' v'] d IH]; cbn; intros Hnd Ha Hb; [destruct Ha|].
  inversion Hnd as [|? ? Hnot Hnd']; subst.
  destruct Ha as [Ha|Ha], Hb as [Hb|Hb].
  - inversion Ha. inversion Hb. subst. reflexivity.
  - inversion Ha. subst. exfalso. apply Hnot.
    apply (in_map snd) in Hb. exact Hb.
  - inversion Hb. subst. exfalso. apply Hnot.
    apply (in_map snd) in Ha. exact Ha.
  - apply IH; assumption.
Qed.

(** X18. No two type names of the table share an oid: [type_oid] can be
    read backwards.  An oid of the table is never zero and is the array
    oid of no row; the array oids that are not zero are pairwise
    distinct. *)
Theorem type_oid_is_injective :
  (forall (a b : string) (oid : N),
      Oids.dict_getitem a Oids.type_oid = Some oid ->
      Oids.dict_getitem b Oids.type_oid = Some oid ->
      a = b)
  /\ (forall row, In row Oids._oids_table ->
        row_oid row <> 0%N
        /\ ~ In (row_oid row) (map row_array Oids._oids_table))
  /\ NoDup (filter (fun array => negb (N.eqb array 0))
              (map row_array Oids._oids_table)).
Proof.
  split; [|split].
  - intros a b oid Ha Hb.
    assert (Hvalues : map snd Oids.type_oid = map row_oid Oids._oids_table)
      by (vm_compute; reflexivity).
    apply (@values_distinct_keys_equal _ _ a b oid Oids.type_oid).
    + rewrite Hvalues. exact oid_table_oids_distinct.
    + apply dict_getitem_In. exact Ha.
    + apply dict_getitem_In. exact Hb.
  - assert (Hall :
      forallb
        (fun row =>
           negb (N.eqb (row_oid row) 0)
           && negb (existsb (N.eqb (row_oid row))
                      (map row_array Oids._oids_table)))
        Oids._oids_table = true) by (vm_compute; reflexivity).
    intros row Hin. rewrite forallb_forall in Hall.
    specialize (Hall row Hin). apply andb_true_iff in Hall.
    destruct Hall as [Hz Hno]. split.
    + apply negb_true_iff, N.eqb_neq in Hz. exact Hz.
    + intros Hmem. apply negb_true_iff in Hno.
      assert (Hex : existsb (N.eqb (row_oid row))
                      (map row_array Oids._oids_table) = true).
      { apply existsb_exists. exists (row_oid row).
        split; [exact Hmem|apply N.eqb_refl]. }
      rewrite Hex in Hno. discriminate.
  - apply distinct_oids_NoDup. vm_compute. reflexivity.
Qed.

Lemma marked_from_app (i : nat) (marker : string) (l1 l2 : list string) :
  Oids.marked_from i marker (l1 ++ l2)
  = (Oids.marked_from i marker l1
     ++ Oids.marked_from (i + length l1) marker l2)%list.
Proof.
  revert i. induction l1 as [|x l1 IH]; intros i; cbn.
  - rewrite Nat.add_0_r. reflexivity.
  - rewrite IH. replace (S i + length l1) with (i + S (length l1)) by lia.
    destruct (Oids.contains marker x); reflexivity.
Qed.

Lemma marked_from_none (i : nat) (marker : string) (l : list string) :
  Forall (fun line => Oids.contains marker line = false) l ->
  Oids.marked_from i marker l = [].
Proof.
  intros H. revert i. induction H as [|x l Hx Hl IH]; intros i; cbn.
  - reflexivity.
  - rewrite Hx. apply IH.
Qed.

Lemma marked_from_single (marker line : string) (l1 l2 : list string) :
  Forall (fun l => Oids.contains marker l = false) l1 ->
  Oids.contains marker line = true ->
  Forall (fun l => Oids.contains marker l = false) l2 ->
  Oids.marked_from 0 marker (l1 ++ line :: l2) = [length l1].
Proof.
  intros H1 Hline H2. rewrite marked_from_app. cbn.
  rewrite Hline, (@marked_from_none 0 marker l1 H1).
  match goal with
  | |- context [Oids.marked_from ?i marker l2] =>
      rewrite (@marked_from_none i marker l2 H2)
  end.
  reflexivity.
Qed.

Lemma unmarked_lines (l : list string) :
  Forall (fun line => unmarked line = true) l ->
  Forall (fun line => Oids.contains "autogenerated start" line = false) l
  /\ Forall (fun line => Oids.contains "autogenerated end" line = false) l.
Proof.
  intros H. split; eapply Forall_impl; try exact H; intros line Hl;
    unfold unmarked in Hl; apply andb_true_iff in Hl; destruct Hl as [Ha Hb];
    apply negb_true_iff; assumption.
Qed.

(** The splice of [self_update] on a file with one line for each marker. *)
Lemma self_update_splice (before old after new : list string)
    (start finish : string) :
  Forall (fun line => unmarked line = true) (before ++ old ++ after) ->
  Oids.contains "autogenerated start" start = true ->
  Oids.contains "autogenerated end" start = false ->
  Oids.contains "autogenerated end" finish = true ->
  Oids.contains "autogenerated start" finish = false ->
  Oids.self_update (before ++ start :: old ++ finish :: after) new
  = Some (before ++ start :: new ++ finish :: after)%list.
Proof.
  intros Hun Hs1 Hs2 Hf1 Hf2.
  apply Forall_app in Hun. destruct Hun as [Hb Hoa].
  apply Forall_app in Hoa. destruct Hoa as [Ho Ha].
  destruct (@unmarked_lines before Hb) as (Hbs & Hbe).
  destruct (@unmarked_lines old Ho) as (Hos & Hoe).
  destruct (@unmarked_lines after Ha) as (Has & Hae).
  unfold Oids.self_update.
  rewrite (@marked_from_single "autogenerated start" start before
             (old ++ finish :: after)); try assumption.
  2:{ apply Forall_app. split; [exact Hos|]. constructor; assumption. }
  cbn [Oids.unpack_single].
  replace (before ++ start :: old ++ finish :: after)%list
    with ((before ++ start :: old) ++ finish :: after)%list
    by (rewrite <- app_assoc; reflexivity).
  rewrite (@marked_from_single "autogenerated end" finish
             (before ++ start :: old) after); try assumption.
  2:{ apply Forall_app. split; [exact Hbe|]. constructor; assumption. }
  cbn [Oids.unpack_single]. f_equal. unfold Oids.slice_assign.
  assert (Hmax : Nat.max (length before + 1) (length (before ++ start :: old))
                 = length (before ++ start :: old)).
  { rewrite length_app. cbn [length]. lia. }
  rewrite Hmax, skipn_app, skipn_all, Nat.sub_diag. cbn [skipn app].
  rewrite <- app_assoc. cbn [app].
  rewrite firstn_app_2. cbn [firstn]. rewrite <- app_assoc. reflexivity.
Qed.

(** X19. [self_update] replaces the lines between the two marker lines by
    the new ones and keeps every other line, the marker lines included: a
    second run with the same lines changes nothing.  Without a line that
    holds a marker it raises. *)
Theorem self_update_replaces_between_markers :
  forall (before old after new : list string) (start finish : string),
    Forall (fun line => unmarked line = true) (before ++ old ++ after) ->
    Oids.contains "autogenerated start" start = true ->
    Oids.contains "autogenerated end" start = false ->
    Oids.contains "autogenerated end" finish = true ->
    Oids.contains "autogenerated start" finish = false ->
    let updated := (before ++ start :: new ++ finish :: after)%list in
    Oids.self_update (before ++ start :: old ++ finish :: after) new
    = Some updated
    /\ (Forall (fun line => unmarked line = true) new ->
        Oids.self_update updated new = Some updated)
    /\ Oids.self_update (before ++ old ++ after) new = None.
Proof.
  intros before old after new start finish Hun Hs1 Hs2 Hf1 Hf2 updated.
  subst updated. split; [|split].
  - apply self_update_splice; assumption.
  - intros Hnew. apply self_update_splice; try assumption.
    apply Forall_app in Hun. destruct Hun as [Hb Hoa].
    apply Forall_app in Hoa. destruct Hoa as [_ Ha].
    apply Forall_app. split; [exact Hb|].
    apply Forall_app. split; assumption.
  - destruct (@unmarked_lines _ Hun) as (Hs & _).
    unfold Oids.self_update.
    rewrite (@marked_from_none 0 "autogenerated start" _ Hs). reflexivity.
Qed.

(* ------------------------------------------------------------------ *)
(** * The further statements on the test doubles *)

Lemma reliable_never_fails : @wire_never_fails TransactionStatus bool Reliable.
Proof. intros batch w. reflexivity. Qed.

Lemma raising_block_balanced (e : exn)
    (c : @Connection TransactionStatus bool) :
  external e = true ->
  stack_consistent c ->
  balanced c (raise e c).
Proof.
  intros He Hc. split; [reflexivity|]. split; [exact Hc|].
  split; [exact He|]. exists []. rewrite app_nil_r.
  split; [reflexivity|constructor].
Qed.

(** An inner scope named [x] whose [SAVEPOINT] fails on the wire. *)
Lemma entry_failure_leaves_scope_on_stack_witness :
  _entered (fresh_scope 2 "x") = false
  /\ fst (round_trip
            (enter_batch
               (entered_on (fresh_scope 2 "x")
                  (scripted_in_transaction [EmptyString]
                     [Some "connection lost"])))
            (pgconn (scripted_in_transaction [EmptyString]
                       [Some "connection lost"])))
     = Some "connection lost"
  /\ _enter_gen
       {| self := fresh_scope 2 "x";
          conn := scripted_in_transaction [EmptyString]
                    [Some "connection lost"] |}
     = (Raise (OperationalError "connection lost"),
        {| self := entered_on (fresh_scope 2 "x")
                     (scripted_in_transaction [EmptyString]
                        [Some "connection lost"]);
           conn := block_start (fresh_scope 2 "x")
                     (scripted_in_transaction [EmptyString]
                        [Some "connection lost"]) |}).
Proof.
  split; [reflexivity|]. split; [reflexivity|].
  exact (proj1 (@entry_failure_leaves_scope_on_stack _ _ Scripted
                  (fresh_scope 2 "x")
                  (scripted_in_transaction [EmptyString]
                     [Some "connection lost"])
                  "connection lost" (ret tt) eq_refl eq_refl eq_refl)).
Defined.

(** An idle connection whose stack still holds a name. *)
Lemma outer_entry_on_open_stack_witness :
  _entered (fresh_scope 1 EmptyString) = false
  /\ _savepoints (set_savepoints ["x"] (reliable_connection IDLE)) <> []
  /\ _enter_gen
       {| self := fresh_scope 1 EmptyString;
          conn := set_savepoints ["x"] (reliable_connection IDLE) |}
     = (Raise AssertionError,
        {| self := set_outer_transaction true
                     (set_entered true (fresh_scope 1 EmptyString));
           conn := set_savepoints ["x"] (reliable_connection IDLE) |}).
Proof.
  split; [reflexivity|].
  assert (H : _savepoints (set_savepoints ["x"] (reliable_connection IDLE))
              <> []) by discriminate.
  split; [exact H|].
  exact (proj1 (@outer_entry_on_open_stack _ _ Reliable
                  (fresh_scope 1 EmptyString)
                  (set_savepoints ["x"] (reliable_connection IDLE))
                  eq_refl eq_refl H)).
Defined.

(** The outer scope exits before the inner one named [x]. *)
Lemma swapped_exits_both_raise_witness :
  _savepoint_name (entered_scope 1 EmptyString true)
  <> _savepoint_name (entered_scope 2 "x" false)
  /\ fst (_exit_gen None
            {| self := entered_scope 1 EmptyString true;
               conn := set_savepoints
                         ([] ++ [EmptyString; "x"])%list
                         (reliable_in_transaction []) |})
     = Raise (OutOfOrderTransactionNesting
                (nesting_message (entered_scope 1 EmptyString true)
                   (reliable_in_transaction [])
                   (exit_action None (entered_scope 1 EmptyString true))
                   "x")).
Proof.
  assert (H : _savepoint_name (entered_scope 1 EmptyString true)
              <> _savepoint_name (entered_scope 2 "x" false))
    by discriminate.
  split; [exact H|].
  exact (proj1 (@swapped_exits_both_raise _ _ Reliable None None
                  (entered_scope 1 EmptyString true)
                  (entered_scope 2 "x" false)
                  (reliable_in_transaction []) [] H)).
Defined.

(** An outer scope whose block raises the explicit rollback without a
    target. *)
Lemma with_statement_outcome_witness :
  @wire_never_fails TransactionStatus bool Reliable
  /\ @well_behaved_wire TransactionStatus bool Reliable
  /\ stack_consistent (reliable_connection IDLE)
  /\ fst (with_statement (fresh_scope 1 EmptyString)
            (raise (Rollback None)) (reliable_connection IDLE))
     = Return tt.
Proof.
  split; [exact reliable_never_fails|].
  split; [exact reliable_well_behaved|].
  assert (Hc : stack_consistent (reliable_connection IDLE))
    by (intros _; reflexivity).
  split; [exact Hc|].
  exact (@with_statement_outcome _ _ Reliable reliable_never_fails
           reliable_well_behaved (fresh_scope 1 EmptyString)
           (raise (Rollback None)) (reliable_connection IDLE) eq_refl Hc
           (fun c1 H1 => @raising_block_balanced (Rollback None) c1
                           eq_refl H1)).
Defined.


(** A scope given the name of the next depth, and an anonymous one in
    it. *)
Lemma synthesized_name_can_collide_witness :
  @savepoint_keeps_transaction TransactionStatus bool Reliable
  /\ anonymous (fresh_scope 3 EmptyString)
  /\ exists parent' child' c',
       enter_nested [fresh_scope 2 "_pg3_3"; fresh_scope 3 EmptyString]
         (reliable_in_transaction [EmptyString])
       = Some ([parent'; child'], c')
       /\ _savepoint_name parent' = "_pg3_3"
       /\ _savepoint_name child' = "_pg3_3"
       /\ _savepoints c'
          = (_savepoints (reliable_in_transaction [EmptyString])
             ++ ["_pg3_3"; "_pg3_3"])%list
       /\ forall (exc_val : option exn) (msg : string),
            fst (_exit_gen exc_val {| self := parent'; conn := c' |})
            <> Raise (OutOfOrderTransactionNesting msg).
Proof.
  split; [exact reliable_savepoint_keeps|].
  assert (Ha : anonymous (fresh_scope 3 EmptyString))
    by (split; reflexivity).
  split; [exact Ha|].
  exact (@synthesized_name_can_collide _ _ Reliable
           reliable_savepoint_keeps (fresh_scope 2 "_pg3_3")
           (fresh_scope 3 EmptyString)
           (reliable_in_transaction [EmptyString]) eq_refl eq_refl Ha
           eq_refl).
Defined.

(** An inner scope of the older module on top of the stack; the wire
    refuses its rollback. *)
Lemma older_exit_outcome_witness :
  fst (Psycopg3.__exit__ 2 (Some (OperationalError "boom"))
         ({| Psycopg3.force_rollback := false; Psycopg3._yolo := false;
             Psycopg3._outer_transaction := false;
             Psycopg3._savepoint_name := "x" |},
          set_savepoints ([EmptyString] ++ ["x"])%list
            (scripted_in_transaction [] [Some "connection lost"])))
  = Raise (OperationalError "connection lost").
Proof.
  exact (proj1 (proj2 (proj2
           (@older_exit_outcome _ _ Scripted 2
              (Some (OperationalError "boom"))
              {| Psycopg3.force_rollback := false; Psycopg3._yolo := false;
                 Psycopg3._outer_transaction := false;
                 Psycopg3._savepoint_name := "x" |}
              (scripted_in_transaction [] [Some "connection lost"])
              [EmptyString] eq_refl)))
           "connection lost" eq_refl).
Defined.

Lemma older_entry_is_one_shot_witness :
  Psycopg3.__enter__
    (snd (Psycopg3.__enter__
            ({| Psycopg3.force_rollback := false; Psycopg3._yolo := true;
                Psycopg3._outer_transaction := false;
                Psycopg3._savepoint_name := "s2" |},
             reliable_in_transaction [EmptyString])))
  = (Raise AssertionError,
     snd (Psycopg3.__enter__
            ({| Psycopg3.force_rollback := false; Psycopg3._yolo := true;
                Psycopg3._outer_transaction := false;
                Psycopg3._savepoint_name := "s2" |},
             reliable_in_transaction [EmptyString]))).
Proof.
  exact (proj2 (proj2 (proj2
           (@older_entry_is_one_shot _ _ Reliable
              {| Psycopg3.force_rollback := false; Psycopg3._yolo := true;
                 Psycopg3._outer_transaction := false;
                 Psycopg3._savepoint_name := "s2" |}
              (reliable_in_transaction [EmptyString]) eq_refl eq_refl)))).
Defined.

Lemma older_names_collide_witness :
  is_IDLE (transaction_status
             (pgconn (reliable_in_transaction [EmptyString]))) = false
  /\ exists a b,
       Psycopg3.__init__ None false (reliable_in_transaction [EmptyString])
       = (Return a, reliable_in_transaction [EmptyString])
       /\ Psycopg3.__init__ None false (reliable_in_transaction [EmptyString])
          = (Return b, reliable_in_transaction [EmptyString])
       /\ Psycopg3._savepoint_name a = "s2"
       /\ Psycopg3._savepoint_name b = Psycopg3._savepoint_name a
       /\ _savepoints
            (snd (snd (Psycopg3._enter_commands
                         (b, snd (snd (Psycopg3._enter_commands
                                         (a, reliable_in_transaction
                                               [EmptyString])))))))
          = (_savepoints (reliable_in_transaction [EmptyString])
             ++ [Psycopg3._savepoint_name a;
                 Psycopg3._savepoint_name a])%list.
Proof.
  split; [reflexivity|].
  exact (@older_names_collide _ _ Reliable false false
           (reliable_in_transaction [EmptyString]) eq_refl).
Defined.

Lemma older_enter_exit_round_trip_witness :
  fst (Psycopg3.__init__ (Some "x") false (reliable_connection IDLE))
  = Return {| Psycopg3.force_rollback := false; Psycopg3._yolo := true;
              Psycopg3._outer_transaction := true;
              Psycopg3._savepoint_name := "x" |}
  /\ _savepoints
       (snd (snd (Psycopg3.__exit__ 1 None
                    (snd (Psycopg3.__enter__
                            ({| Psycopg3.force_rollback := false;
                                Psycopg3._yolo := true;
                                Psycopg3._outer_transaction := true;
                                Psycopg3._savepoint_name := "x" |},
                             reliable_connection IDLE))))))
     = _savepoints (reliable_connection IDLE).
Proof.
  split; [reflexivity|].
  exact (proj1 (proj2
           (@older_enter_exit_round_trip _ _ Reliable (Some "x") false
              (reliable_connection IDLE)
              {| Psycopg3.force_rollback := false; Psycopg3._yolo := true;
                 Psycopg3._outer_transaction := true;
                 Psycopg3._savepoint_name := "x" |}
              1 None eq_refl))).
Defined.

(** A file of five lines with one generated row. *)
Lemma self_update_replaces_between_markers_witness :
  Forall (fun line => unmarked line = true)
    (["_oids_table = ["] ++ ["    (abstime, 702),"] ++ ["]"])%list
  /\ Oids.self_update
       (["_oids_table = ["]
        ++ "    # autogenerated start"
           :: ["    (abstime, 702),"] ++ "    # autogenerated end" :: ["]"])
       ["    (aclitem, 1033),"; "    (bit, 1560),"]
     = Some (["_oids_table = ["]
             ++ "    # autogenerated start"
                :: ["    (aclitem, 1033),"; "    (bit, 1560),"]
                   ++ "    # autogenerated end" :: ["]"])%list.
Proof.
  assert (H : Forall (fun line => unmarked line = true)
                (["_oids_table = ["] ++ ["    (abstime, 702),"]
                 ++ ["]"])%list)
    by (repeat constructor).
  split; [exact H|].
  exact (proj1 (@self_update_replaces_between_markers
                  ["_oids_table = ["] ["    (abstime, 702),"] ["]"]
                  ["    (aclitem, 1033),"; "    (bit, 1560),"]
                  "    # autogenerated start" "    # autogenerated end"
                  H eq_refl eq_refl eq_refl eq_refl)).
Defined.
